(** * dts_flow: the Daily Treasury Statement report, verified

    A shallow embedding of [dts_parser/dts_flow.py].  The script is one linear
    pipeline: a paginated download of the year's records, a group-and-sum into
    a daily series, a today / month-to-date / year-to-date summary, a text
    report and a day-over-day percent-change series for the chart.

    Modelling choices, all of them stated where they are made:
    - amounts are exact rationals ([Q]): the rounding of binary floating point
      is not modelled, and an amount string never denotes an infinity;
    - a timestamp is a calendar date (the API sends dates without a time of
      day), ordered as pandas orders timestamps;
    - the two pandas parsers, [pd.to_datetime] and [pd.to_numeric], and the HTTP
      server are parameters of the pipeline; [iso_to_datetime] and
      [decimal_to_numeric] instantiate the parsers on the wire format of the
      API, so that every definition can be run on concrete records. *)

From Stdlib Require Import List String Ascii Bool Arith ZArith QArith Lia Lqa.
From Stdlib Require Import Sorted Permutation DecimalString.
Import ListNotations.

Local Open Scope string_scope.
Local Open Scope Z_scope.

(** ** Exceptions and results *)

(** The exceptions the script can die with: [resp.raise_for_status()], a
    missing column of the record table, and a rejected date string. *)
Inductive exn : Type :=
| HTTPError
| KeyError (column : string)
| ValueError.

Inductive result (A : Type) : Type :=
| Ok (a : A)
| Raise (e : exn).

Arguments Ok {A} a.
Arguments Raise {A} e.

Definition bind {A B : Type} (r : result A) (k : A -> result B) : result B :=
  match r with
  | Ok a => k a
  | Raise e => Raise e
  end.

Notation "x <- r ;; k" := (bind r (fun x => k))
  (at level 61, r at next level, right associativity).

Definition is_ok {A : Type} (r : result A) : bool :=
  match r with
  | Ok _ => true
  | Raise _ => false
  end.

(** ** Timestamps *)

(** [pd.Timestamp], normalized to midnight. *)
Record Timestamp : Type := mkTimestamp { year : Z; month : Z; day : Z }.

(** Timestamps compare by the instant they denote, which on calendar dates is
    the lexicographic order of year, month and day. *)
Definition ts_compare (a b : Timestamp) : comparison :=
  match year a ?= year b with
  | Eq => match month a ?= month b with
          | Eq => day a ?= day b
          | c => c
          end
  | c => c
  end.

Definition ts_eqb (a b : Timestamp) : bool :=
  match ts_compare a b with Eq => true | _ => false end.

Definition ts_leb (a b : Timestamp) : bool :=
  match ts_compare a b with Gt => false | _ => true end.

(** The order of the calendar, as a proposition. *)
Definition ts_lt (a b : Timestamp) : Prop :=
  year a < year b \/
  (year a = year b /\
   (month a < month b \/ (month a = month b /\ day a < day b))).

Definition ts_le (a b : Timestamp) : Prop := ts_lt a b \/ a = b.

(** ** Records and the two pandas parsers *)

(** One element of the [data] array of a response: both fields are strings. *)
Record raw_record : Type :=
  mkRecord { record_date : string; transaction_today_amt : string }.

(** What [pd.to_datetime] makes of one string: a timestamp; the missing value
    [NaT] (pandas reads the empty string and its missing-value markers so, and
    does not raise); or a rejection, which raises. *)
Inductive parsed_date : Type :=
| Stamp (t : Timestamp)
| NaT
| Unparseable.

(** *** The wire format of the API *)

Definition digit_value (c : ascii) : option Z :=
  let n := Z.of_nat (nat_of_ascii c) in
  if (48 <=? n) && (n <=? 57) then Some (n - 48) else None.

(** The value of a string of decimal digits, read after [acc]. *)
Fixpoint digits_value (acc : Z) (s : string) : option Z :=
  match s with
  | EmptyString => Some acc
  | String c s' =>
      match digit_value c with
      | Some d => digits_value (10 * acc + d) s'
      | None => None
      end
  end.

Definition number_value (s : string) : option Z :=
  match s with
  | EmptyString => None
  | _ => digits_value 0 s
  end.

Definition is_leap (y : Z) : bool :=
  ((y mod 4 =? 0) && negb (y mod 100 =? 0)) || (y mod 400 =? 0).

Definition days_in_month (y m : Z) : Z :=
  if m =? 2 then (if is_leap y then 29 else 28)
  else if (m =? 4) || (m =? 6) || (m =? 9) || (m =? 11) then 30
  else 31.

Definition nat_strings : list string :=
  ["NaT"; "nat"; "NAT"; "nan"; "NaN"; "NAN"].

(** [pd.to_datetime] on the wire format: an ISO date [YYYY-MM-DD] is a
    timestamp, the empty string and the missing-value markers are [NaT].
    pandas reads further layouts too; they are outside the wire format and
    stand as rejected here. *)
Definition iso_to_datetime (s : string) : parsed_date :=
  if (s =? "")%string || existsb (String.eqb s) nat_strings then NaT
  else if negb (Nat.eqb (String.length s) 10) then Unparseable
  else if negb ((substring 4 1 s =? "-")%string && (substring 7 1 s =? "-")%string)
       then Unparseable
  else
    match number_value (substring 0 4 s),
          number_value (substring 5 2 s),
          number_value (substring 8 2 s) with
    | Some y, Some m, Some d =>
        if (1 <=? m) && (m <=? 12) && (1 <=? d) && (d <=? days_in_month y m)
        then Stamp (mkTimestamp y m d)
        else Unparseable
    | _, _, _ => Unparseable
    end.

(** Splits a string at its first ['.']. *)
Fixpoint split_point (s : string) : string * option string :=
  match s with
  | EmptyString => (EmptyString, None)
  | String c s' =>
      if Ascii.eqb c "."%char then (EmptyString, Some s')
      else let (i, f) := split_point s' in (String c i, f)
  end.

Definition unsigned_decimal (s : string) : option Q :=
  match split_point s with
  | (i, None) =>
      match number_value i with
      | Some n => Some (inject_Z n)
      | None => None
      end
  | (i, Some f) =>
      match digits_value 0 i, digits_value 0 f with
      | Some n, Some m =>
          if ((i =? "") && (f =? ""))%string then None
          else Some (Qmake (n * 10 ^ Z.of_nat (String.length f) + m)
                           (Z.to_pos (10 ^ Z.of_nat (String.length f))))
      | _, _ => None
      end
  end.

(** [pd.to_numeric(..., errors='coerce')] on the wire format: a decimal
    numeral with an optional sign is its value; anything else, the empty string
    included, is coerced to the missing value ([None], pandas's NaN). *)
Definition decimal_to_numeric (s : string) : option Q :=
  match s with
  | String "-"%char s' =>
      match unsigned_decimal s' with
      | Some q => Some (Qopp q)
      | None => None
      end
  | String "+"%char s' => unsigned_decimal s'
  | _ => unsigned_decimal s
  end.

(** ** Series *)

(** A pandas Series indexed by timestamps: its index and values, in order. *)
Definition Series (V : Type) : Type := list (Timestamp * V).

Definition index {V : Type} (s : Series V) : list Timestamp := map fst s.
Definition values {V : Type} (s : Series V) : list V := map snd s.

(** [t in s.index] *)
Definition index_contains {V : Type} (t : Timestamp) (s : Series V) : bool :=
  existsb (fun k => ts_eqb k t) (index s).

(** [s.loc[t]] on an index without repeats. *)
Fixpoint loc {V : Type} (t : Timestamp) (s : Series V) : option V :=
  match s with
  | [] => None
  | (k, v) :: s' => if ts_eqb k t then Some v else loc t s'
  end.

(** [s.sum()]: the values are added from left to right, starting from 0. *)
Definition series_sum (s : Series Q) : Q := fold_left Qplus (values s) 0%Q.

(** [s[(s.index >= lo) & (s.index <= hi)]] *)
Definition between (lo hi : Timestamp) (s : Series Q) : Series Q :=
  filter (fun e => ts_leb lo (fst e) && ts_leb (fst e) hi) s.

(** One step of [groupby(key).sum()]: the amount joins the group of its key,
    and a key seen for the first time opens a group at 0. *)
Fixpoint add_group (k : Timestamp) (v : Q) (groups : Series Q) : Series Q :=
  match groups with
  | [] => [(k, (0 + v)%Q)]
  | (k', acc) :: rest =>
      if ts_eqb k k' then (k', (acc + v)%Q) :: rest
      else (k', acc) :: add_group k v rest
  end.

(** [df.groupby(key)[col].sum()]: rows whose key is missing are left out
    (pandas drops them), the others are summed per key in row order. *)
Definition groupby_sum (rows : list (option Timestamp * Q)) : Series Q :=
  fold_left
    (fun groups row =>
       match fst row with
       | Some k => add_group k (snd row) groups
       | None => groups
       end)
    rows [].

Fixpoint insert_sorted (e : Timestamp * Q) (s : Series Q) : Series Q :=
  match s with
  | [] => [e]
  | e' :: s' =>
      if ts_leb (fst e) (fst e') then e :: s else e' :: insert_sorted e s'
  end.

(** [s.sort_index()] *)
Definition sort_index (s : Series Q) : Series Q := fold_right insert_sorted [] s.

(** ** Values of the percent-change series *)

(** A float64 with exact finite values: the chart data can hold infinities
    and NaN, which division by a zero total produces. *)
Inductive float64 : Type :=
| Finite (q : Q)
| PosInf
| NegInf
| NaN.

Definition is_finite (x : float64) : bool :=
  match x with
  | Finite _ => true
  | _ => false
  end.

(** The infinity with the sign of a comparison against 0, NaN for [Eq]. *)
Definition inf_of_sign (c : comparison) : float64 :=
  match c with
  | Gt => PosInf
  | Lt => NegInf
  | Eq => NaN
  end.

Definition fsign (x : float64) : comparison :=
  match x with
  | Finite q => (q ?= 0)%Q
  | PosInf => Gt
  | NegInf => Lt
  | NaN => Eq
  end.

(** Division as IEEE 754 has it, on exact values: it never raises, and a
    quotient by zero is an infinity with the sign of the dividend, or NaN for
    zero by zero.  A zero divisor is the positive zero: the totals of the
    daily series are sums that start from 0.0. *)
Definition fdiv (x y : float64) : float64 :=
  match x, y with
  | NaN, _ | _, NaN => NaN
  | Finite a, Finite b =>
      if Qeq_bool b 0 then inf_of_sign (a ?= 0)%Q else Finite (a / b)
  | Finite _, _ => Finite 0
  | _, Finite b =>
      match (b ?= 0)%Q with
      | Lt => inf_of_sign (CompOpp (fsign x))
      | _ => x
      end
  | _, _ => NaN
  end.

Definition fsub (x y : float64) : float64 :=
  match x, y with
  | NaN, _ | _, NaN => NaN
  | Finite a, Finite b => Finite (a - b)
  | Finite _, PosInf => NegInf
  | Finite _, NegInf => PosInf
  | PosInf, PosInf | NegInf, NegInf => NaN
  | _, _ => x
  end.

Definition fmul (x y : float64) : float64 :=
  match x, y with
  | NaN, _ | _, NaN => NaN
  | Finite a, Finite b => Finite (a * b)
  | _, _ =>
      match fsign x, fsign y with
      | Eq, _ | _, Eq => NaN
      | Lt, Lt | Gt, Gt => PosInf
      | _, _ => NegInf
      end
  end.

(** Equality of float64 values, up to the representation of a rational;
    NaN stands for the undefined value and is related to itself. *)
Definition feq (x y : float64) : Prop :=
  match x, y with
  | Finite a, Finite b => (a == b)%Q
  | PosInf, PosInf | NegInf, NegInf | NaN, NaN => True
  | _, _ => False
  end.

(** [s.shift(1)]: every value moves to the next label, the first is NaN. *)
Definition shift1 (vals : list float64) : list float64 :=
  firstn (List.length vals) (NaN :: vals).

(** [s.pct_change()]: [s / s.shift(1) - 1]. *)
Definition series_pct_change (s : Series Q) : Series float64 :=
  let vals := map Finite (values s) in
  combine (index s)
          (map (fun cp => fsub (fdiv (fst cp) (snd cp)) (Finite 1))
               (combine vals (shift1 vals))).

(** [daily.pct_change() * 100] *)
Definition pct_change (daily : Series Q) : Series float64 :=
  map (fun e => (fst e, fmul (snd e) (Finite 100))) (series_pct_change daily).

(** ** Formatting *)

Definition digits (n : Z) : string :=
  NilZero.string_of_uint (N.to_uint (Z.to_N n)).

Fixpoint zero_pad (fuel : nat) (width : nat) (s : string) : string :=
  match fuel with
  | O => s
  | S fuel' =>
      if Nat.ltb (String.length s) width
      then zero_pad fuel' width (String "0"%char s)
      else s
  end.

(** [today.strftime('%Y-%m-%d')] *)
Definition strftime (t : Timestamp) : string :=
  zero_pad 4 4 (digits (year t)) ++ "-" ++ zero_pad 2 2 (digits (month t))
  ++ "-" ++ zero_pad 2 2 (digits (day t)).

(** The magnitude of a rational rounded to an integer, ties to even. *)
Definition round_half_even (q : Q) : Z :=
  let n := Z.abs (Qnum q) in
  let d := Z.pos (Qden q) in
  let k := n / d in
  match 2 * (n mod d) ?= d with
  | Lt => k
  | Gt => k + 1
  | Eq => if Z.even k then k else k + 1
  end.

Definition sign_prefix (q : Q) : string :=
  if Qnum q <? 0 then "-" else "".

(** Commas between groups of three digits, counted from the right;
    [rev_digits] holds the digits from the last to the first. *)
Fixpoint group_thousands (rev_digits : list ascii) (k : nat) (acc : list ascii)
  : list ascii :=
  match rev_digits with
  | [] => acc
  | c :: rest =>
      match k with
      | 3%nat => group_thousands rest 1 (c :: ","%char :: acc)
      | _ => group_thousands rest (S k) (c :: acc)
      end
  end.

(** The format [,.0f] *)
Definition format_comma_0f (q : Q) : string :=
  sign_prefix q ++
  string_of_list_ascii
    (group_thousands (rev (list_ascii_of_string (digits (round_half_even q)))) 0 []).

(** The format [.3f] *)
Definition format_3f (q : Q) : string :=
  let n := round_half_even (q * 1000) in
  sign_prefix q ++ digits (n / 1000) ++ "." ++ zero_pad 3 3 (digits (n mod 1000)).

(** ** Requests, replies and what a run leaves behind *)

(** The query of one request: the year of the filter, the page size and the
    page number; the other parameters are constants. *)
Record request : Type :=
  mkRequest { filter_year : Z; page_size : nat; page_number : nat }.

(** The reply to a request: a failure status, on which
    [resp.raise_for_status()] raises, or the [data] array of the body. *)
Inductive response : Type :=
| HttpFailure
| HttpData (chunk : list raw_record).

(** What the run leaves behind: the printed lines, and the chart. *)
Record figure : Type :=
  mkFigure { title : string; xlabel : string; ylabel : string; grid : bool;
             xs : list Timestamp; ys : list float64 }.

Record run_output : Type :=
  mkOutput { stdout : list string; chart : figure }.

Definition Qltb (x y : Q) : bool :=
  match (x ?= y)%Q with Lt => true | _ => false end.

Definition fillna0 (x : option Q) : Q :=
  match x with
  | Some q => q
  | None => 0%Q
  end.

(** [df[name]] on the table [pd.DataFrame(data)]: the table of an empty list
    has no column at all, so the selection raises KeyError. *)
Definition get_column {A : Type} (name : string) (proj : raw_record -> A)
  (df : list raw_record) : result (list A) :=
  match df with
  | [] => Raise (KeyError name)
  | _ => Ok (map proj df)
  end.

(** ** Concrete inputs *)

Definition example_records : list raw_record :=
  [ mkRecord "2024-01-03" "150.5"; mkRecord "2024-01-02" "100";
    mkRecord "2024-01-02" ""; mkRecord "2024-01-03" "n/a";
    mkRecord "2024-01-02" "-25" ].

Definition example_daily : Series Q :=
  [ (mkTimestamp 2024 1 2, 75%Q); (mkTimestamp 2024 1 3, (1505 # 10)%Q) ].

Definition negative_daily : Series Q :=
  [ (mkTimestamp 2024 1 2, 20%Q); (mkTimestamp 2024 1 3, (-50)%Q) ].

Definition refund_daily : Series Q :=
  [ (mkTimestamp 2024 3 1, (-5)%Q) ].

Definition flat_daily : Series Q :=
  [ (mkTimestamp 2024 1 2, 0%Q); (mkTimestamp 2024 1 3, 150%Q) ].

(** A server with no record for any year. *)
Definition empty_server (r : request) : response := HttpData [].

(** A server with one full page, then a page of one record. *)
Definition two_page_server (r : request) : response :=
  match page_number r with
  | 1%nat => HttpData (repeat (mkRecord "2024-01-02" "1") 500)
  | 2%nat => HttpData [mkRecord "2024-01-03" "2"]
  | _ => HttpData []
  end.

(** A server with no record for 2025 yet, as on New Year's Day. *)
Definition new_year_server (r : request) : response :=
  if filter_year r =? 2025 then HttpData []
  else HttpData [mkRecord "2024-01-02" "1"].

(** A server with pages of 500, 500 and 237 records. *)
Definition three_page_server (r : request) : response :=
  match page_number r with
  | 1%nat => HttpData (repeat (mkRecord "2024-01-02" "1") 500)
  | 2%nat => HttpData (repeat (mkRecord "2024-01-03" "2") 500)
  | 3%nat => HttpData (repeat (mkRecord "2024-01-04" "3") 237)
  | _ => HttpData []
  end.

(** A server whose second page fails. *)
Definition failing_server (r : request) : response :=
  match page_number r with
  | 1%nat => HttpData (repeat (mkRecord "2024-01-02" "1") 500)
  | _ => HttpFailure
  end.

(** A server with 500 records on every page. *)
Definition endless_server (r : request) : response :=
  HttpData (repeat (mkRecord "2024-01-02" "1") 500).

(** A server with the example records on its first page. *)
Definition example_server (r : request) : response :=
  match page_number r with
  | 1%nat => HttpData example_records
  | _ => HttpData []
  end.

(** ** The script *)

Section Script.

(** The server, and the two pandas parsers. *)
Variable server : request -> response.
Variable to_datetime : string -> parsed_date.
Variable to_numeric : string -> option Q.

(** *** 2. Download (lines 22-34) *)

(** The [while True] loop, with the requests issued so far as [log]; [None]
    when [fuel] iterations did not reach a [break]. *)
Fixpoint fetch_loop (fuel : nat) (current_year : Z) (page : nat)
  (data : list raw_record) (log : list request)
  : option (result (list raw_record) * list request) :=
  match fuel with
  | O => None
  | S fuel' =>
      let req := mkRequest current_year 500 page in
      let log' := (log ++ [req])%list in
      match server req with
      | HttpFailure => Some (Raise HTTPError, log')
      | HttpData chunk =>
          match chunk with
          | [] => Some (Ok data, log')
          | _ =>
              let data' := (data ++ chunk)%list in
              if Nat.ltb (List.length chunk) 500 then Some (Ok data', log')
              else fetch_loop fuel' current_year (S page) data' log'
          end
      end
  end.

Definition fetch (fuel : nat) (current_year : Z)
  : option (result (list raw_record) * list request) :=
  fetch_loop fuel current_year 1 [] [].

(** *** 3. The daily series (lines 37-43) *)

(** [pd.to_datetime(column)]: the first rejected string raises. *)
Fixpoint to_datetime_column (col : list string)
  : result (list (option Timestamp)) :=
  match col with
  | [] => Ok []
  | s :: col' =>
      match to_datetime s with
      | Unparseable => Raise ValueError
      | Stamp t => ts <- to_datetime_column col' ;; Ok (Some t :: ts)
      | NaT => ts <- to_datetime_column col' ;; Ok (None :: ts)
      end
  end.

(** [pd.to_numeric(column, errors='coerce').fillna(0)] *)
Definition to_numeric_column (col : list string) : list Q :=
  map (fun s => fillna0 (to_numeric s)) col.

Definition daily (data : list raw_record) : result (Series Q) :=
  dates <- get_column "record_date" record_date data ;;
  dates <- to_datetime_column dates ;;
  amts <- get_column "transaction_today_amt" transaction_today_amt data ;;
  Ok (sort_index (groupby_sum (combine dates (to_numeric_column amts)))).

(** *** 4. Today, month to date, year to date (lines 46-63) *)

(** [today_value], [None] when today is not in the index. *)
Definition today_value (daily : Series Q) (today : Timestamp) : option Q :=
  if index_contains today daily then loc today daily else None.

(** The line printed in the [else] branch of line 47. *)
Definition warning (daily : Series Q) (today : Timestamp) : list string :=
  if index_contains today daily then []
  else ["Warning: No data found for today " ++ strftime today ++ "."].

Definition mtd (daily : Series Q) (today : Timestamp) : Q :=
  series_sum (between (mkTimestamp (year today) (month today) 1) today daily).

Definition ytd (daily : Series Q) (today : Timestamp) : Q :=
  series_sum (between (mkTimestamp (year today) 1 1) today daily).

Definition pct_today_ytd (daily : Series Q) (today : Timestamp) : option Q :=
  match today_value daily today with
  | Some v =>
      if Qltb 0 (ytd daily today) then Some (v / ytd daily today * 100)%Q
      else None
  | None => None
  end.

Definition pct_mtd_ytd (daily : Series Q) (today : Timestamp) : option Q :=
  if Qltb 0 (ytd daily today)
  then Some (mtd daily today / ytd daily today * 100)%Q
  else None.

(** *** 6. Output (lines 69-75) *)

Definition report (daily : Series Q) (today : Timestamp) : list string :=
  [ "Operating Cash Deposits & Withdrawals (total, all categories):";
    "Data up to: " ++ strftime today;
    match today_value daily today with
    | Some v => "Today's value:     $" ++ format_comma_0f v
    | None => "Today's value:     Data not available."
    end;
    "Month-to-date:     $" ++ format_comma_0f (mtd daily today);
    "Year-to-date:      $" ++ format_comma_0f (ytd daily today);
    match pct_today_ytd daily today with
    | Some p => "% Today / YTD:     " ++ format_3f p ++ "%"
    | None => "% Today / YTD:     N/A"
    end;
    match pct_mtd_ytd daily today with
    | Some p => "% Month / YTD:     " ++ format_3f p ++ "%"
    | None => "% Month / YTD:     N/A"
    end ].

(** *** 7. Plot (lines 78-85) *)

Definition str_int (z : Z) : string :=
  if z <? 0 then "-" ++ digits (- z) else digits z.

Definition plot (daily : Series Q) (today : Timestamp) : figure :=
  mkFigure
    ("Daily % Change in Deposits & Withdrawals (All Categories) for "
       ++ str_int (year today))
    "Date" "Daily % Change" true
    (index (pct_change daily)) (values (pct_change daily)).

(** *** The whole run *)

(** Everything after the daily series is built: nothing in it can raise. *)
Definition summarize (daily : Series Q) (today : Timestamp) : run_output :=
  mkOutput (warning daily today ++ report daily today)%list (plot daily today).

(** The run on the records the download returned. *)
Definition run_on (data : list raw_record) (today : Timestamp)
  : result run_output :=
  d <- daily data ;; Ok (summarize d today).

(** The script; [None] when the download loop is still running after [fuel]
    requests. *)
Definition main (fuel : nat) (today : Timestamp) : option (result run_output) :=
  match fetch fuel (year today) with
  | None => None
  | Some (r, _) => Some (data <- r ;; run_on data today)
  end.

(** ** What the spec says, in its own words *)

(** The date a record bears, when [pd.to_datetime] reads one. *)
Definition bears (d : Timestamp) (r : raw_record) : bool :=
  match to_datetime (record_date r) with
  | Stamp t => ts_eqb t d
  | _ => false
  end.

(** The amount of a record, zero when its string fails numeric parsing. *)
Definition amount (r : raw_record) : Q :=
  match to_numeric (transaction_today_amt r) with
  | Some q => q
  | None => 0%Q
  end.

(** The sum of the amounts of the records that bear date [d]. *)
Definition sum_for_date (d : Timestamp) (data : list raw_record) : Q :=
  fold_left Qplus (map amount (filter (bears d) data)) 0%Q.

(** The key [pd.to_datetime] gives a record: [None] for NaT. *)
Definition key (r : raw_record) : option Timestamp :=
  match to_datetime (record_date r) with
  | Stamp t => Some t
  | _ => None
  end.

(** A record whose date string [pd.to_datetime] does not reject. *)
Definition accepted (r : raw_record) : Prop :=
  to_datetime (record_date r) <> Unparseable.

(** The rows of key [d], and their total in row order. *)
Definition has_key (d : Timestamp) (row : option Timestamp * Q) : bool :=
  match fst row with
  | Some k => ts_eqb k d
  | None => false
  end.

Definition group_total (d : Timestamp) (rows : list (option Timestamp * Q)) : Q :=
  fold_left Qplus (map snd (filter (has_key d) rows)) 0%Q.

(** The order of the calendar is decidable. *)
Definition ts_le_dec (a b : Timestamp) : {ts_le a b} + {~ ts_le a b}.
Proof.
  destruct a as [ya ma da], b as [yb mb db]. unfold ts_le, ts_lt. simpl.
  destruct (Z_lt_dec ya yb); [left; left; lia |].
  destruct (Z.eq_dec ya yb);
    [| right; intros [H | H]; [lia | injection H; lia]].
  destruct (Z_lt_dec ma mb); [left; left; lia |].
  destruct (Z.eq_dec ma mb);
    [| right; intros [H | H]; [lia | injection H; lia]].
  destruct (Z_le_dec da db);
    [| right; intros [H | H]; [lia | injection H; lia]].
  destruct (Z.eq_dec da db); [left; right; congruence | left; left; lia].
Defined.

(** The sum of the values of a series whose date lies in the inclusive
    interval from [lo] to [hi], in the words of the spec. *)
Fixpoint total_within (lo hi : Timestamp) (s : Series Q) : Q :=
  match s with
  | [] => 0
  | (t, v) :: s' =>
      if ts_le_dec lo t then
        if ts_le_dec t hi then v + total_within lo hi s'
        else total_within lo hi s'
      else total_within lo hi s'
  end%Q.

(** The percent change of each value against the one before it, [prev] being
    the value before the first. *)
Fixpoint changes (prev : float64) (s : Series Q) : Series float64 :=
  match s with
  | [] => []
  | (d, v) :: s' =>
      (d, fsub (fdiv (Finite v) prev) (Finite 1)) :: changes (Finite v) s'
  end.

(** The records a request is answered with; none on a failure status. *)
Definition served (q : request) : list raw_record :=
  match server q with
  | HttpData chunk => chunk
  | HttpFailure => []
  end.

(** The records that bear a date at all: [pd.to_datetime] gives them a
    timestamp, not NaT. *)
Definition dated (r : raw_record) : bool :=
  match to_datetime (record_date r) with
  | Stamp _ => true
  | _ => false
  end.

(** The sum of a list of amounts. *)
Definition total (l : list Q) : Q := fold_right Qplus 0%Q l.

(** The records dated from [lo] to [hi], both included. *)
Definition dated_within (lo hi : Timestamp) (r : raw_record) : bool :=
  match to_datetime (record_date r) with
  | Stamp d =>
      if ts_le_dec lo d then (if ts_le_dec d hi then true else false)
      else false
  | _ => false
  end.

(** The rows whose key is there and satisfies [P]. *)
Definition key_sat (P : Timestamp -> bool) (row : option Timestamp * Q) : bool :=
  match fst row with
  | Some k => P k
  | None => false
  end.

(** The rows that have a key. *)
Definition has_some_key (row : option Timestamp * Q) : bool :=
  match fst row with
  | Some _ => true
  | None => false
  end.

(** ** The order of timestamps *)

Lemma ts_eq_fields (a b : Timestamp) :
  year a = year b -> month a = month b -> day a = day b -> a = b.
Proof. destruct a, b; simpl; intros; subst; reflexivity. Qed.

Lemma ts_compare_spec (a b : Timestamp) :
  CompareSpec (a = b) (ts_lt a b) (ts_lt b a) (ts_compare a b).
Proof.
  unfold ts_compare, ts_lt.
  destruct (Z.compare_spec (year a) (year b)) as [Hy|Hy|Hy];
    [ | constructor; lia | constructor; lia ].
  destruct (Z.compare_spec (month a) (month b)) as [Hm|Hm|Hm];
    [ | constructor; lia | constructor; lia ].
  destruct (Z.compare_spec (day a) (day b)) as [Hd|Hd|Hd];
    constructor; try lia.
  now apply ts_eq_fields.
Qed.

Lemma ts_lt_irrefl (a : Timestamp) : ~ ts_lt a a.
Proof. unfold ts_lt; lia. Qed.

Lemma ts_lt_trans (a b c : Timestamp) : ts_lt a b -> ts_lt b c -> ts_lt a c.
Proof. unfold ts_lt; lia. Qed.

Lemma ts_eqb_eq (a b : Timestamp) : ts_eqb a b = true <-> a = b.
Proof.
  unfold ts_eqb. destruct (ts_compare_spec a b) as [H|H|H]; split; try easy;
    intros ->; now apply ts_lt_irrefl in H.
Qed.

Lemma ts_eqb_refl (a : Timestamp) : ts_eqb a a = true.
Proof. now apply ts_eqb_eq. Qed.

Lemma ts_eqb_neq (a b : Timestamp) : ts_eqb a b = false <-> a <> b.
Proof.
  rewrite <- ts_eqb_eq. destruct (ts_eqb a b); split; congruence.
Qed.

Lemma ts_leb_le (a b : Timestamp) : ts_leb a b = true <-> ts_le a b.
Proof.
  unfold ts_leb, ts_le. destruct (ts_compare_spec a b) as [H|H|H]; split;
    try easy; auto.
  intros [H'| ->].
  - exfalso. apply (ts_lt_irrefl a). now apply ts_lt_trans with b.
  - now apply ts_lt_irrefl in H.
Qed.

Lemma ts_leb_gt (a b : Timestamp) : ts_leb a b = false <-> ts_lt b a.
Proof.
  unfold ts_leb. destruct (ts_compare_spec a b) as [H|H|H]; split; try easy.
  - intros H'. subst. now apply ts_lt_irrefl in H'.
  - intros H'. exfalso. apply (ts_lt_irrefl a). now apply ts_lt_trans with b.
Qed.

Lemma ts_le_lt_neq (a b : Timestamp) : ts_le a b -> a <> b -> ts_lt a b.
Proof. intros [H | H] Hne; [exact H | contradiction]. Qed.

(** ** Series: lookup, grouping, sorting *)

Lemma loc_In {V : Type} (d : Timestamp) (v : V) (s : Series V) :
  loc d s = Some v -> In (d, v) s.
Proof.
  induction s as [| [k w] s IH]; simpl; [discriminate |].
  destruct (ts_eqb k d) eqn:E.
  - intros [= ->]. apply ts_eqb_eq in E. subst. now left.
  - intros H. right. now apply IH.
Qed.

Lemma loc_None {V : Type} (d : Timestamp) (s : Series V) :
  loc d s = None <-> ~ In d (index s).
Proof.
  induction s as [| [k w] s IH]; simpl; [tauto |].
  destruct (ts_eqb k d) eqn:E.
  - apply ts_eqb_eq in E. split; [discriminate | intros H; exfalso; apply H; now left].
  - apply ts_eqb_neq in E. rewrite IH. tauto.
Qed.

Lemma In_loc {V : Type} (d : Timestamp) (v : V) (s : Series V) :
  NoDup (index s) -> In (d, v) s -> loc d s = Some v.
Proof.
  induction s as [| [k w] s IH]; simpl; [tauto |].
  intros Hnd [H | H].
  - injection H as -> ->. now rewrite ts_eqb_refl.
  - inversion Hnd as [| ? ? Hk Hs]; subst.
    destruct (ts_eqb k d) eqn:E.
    + apply ts_eqb_eq in E. subst. exfalso. apply Hk.
      change d with (fst (d, v)). now apply in_map.
    + now apply IH.
Qed.

Lemma index_contains_In {V : Type} (d : Timestamp) (s : Series V) :
  index_contains d s = true <-> In d (index s).
Proof.
  unfold index_contains. rewrite existsb_exists. split.
  - intros [k [Hk E]]. apply ts_eqb_eq in E. now subst.
  - intros H. exists d. split; [exact H | apply ts_eqb_refl].
Qed.

Lemma loc_add_group (d k : Timestamp) (v : Q) (g : Series Q) :
  loc d (add_group k v g) =
  if ts_eqb k d
  then Some (match loc k g with Some a => a + v | None => 0 + v end)%Q
  else loc d g.
Proof.
  induction g as [| [k' a] g IH]; simpl.
  - destruct (ts_eqb k d); reflexivity.
  - destruct (ts_eqb k k') eqn:E; simpl.
    + apply ts_eqb_eq in E. subst k'. rewrite ts_eqb_refl.
      destruct (ts_eqb k d); reflexivity.
    + assert (E' : ts_eqb k' k = false).
      { apply ts_eqb_neq. apply ts_eqb_neq in E. congruence. }
      rewrite E', IH.
      destruct (ts_eqb k d) eqn:Ed; [| reflexivity].
      apply ts_eqb_eq in Ed. subst d. now rewrite E'.
Qed.

Lemma index_add_group (k : Timestamp) (v : Q) (g : Series Q) :
  index (add_group k v g) =
  if index_contains k g then index g else (index g ++ [k])%list.
Proof.
  unfold index_contains.
  induction g as [| [k' a] g IH]; simpl; [reflexivity |].
  destruct (ts_eqb k k') eqn:E; simpl.
  - apply ts_eqb_eq in E. subst. now rewrite ts_eqb_refl.
  - assert (E' : ts_eqb k' k = false).
    { apply ts_eqb_neq. apply ts_eqb_neq in E. congruence. }
    rewrite E'. simpl. fold (index g). fold (index (add_group k v g)).
    rewrite IH. now destruct (existsb _ (index g)).
Qed.

Lemma NoDup_add_group (k : Timestamp) (v : Q) (g : Series Q) :
  NoDup (index g) -> NoDup (index (add_group k v g)).
Proof.
  intros H. rewrite index_add_group.
  destruct (index_contains k g) eqn:E; [exact H |].
  apply NoDup_rev in H. rewrite <- (rev_involutive (index g ++ [k])).
  apply NoDup_rev. rewrite rev_app_distr. simpl. constructor; [| exact H].
  rewrite <- in_rev. intros Hin. apply index_contains_In in Hin. congruence.
Qed.

Lemma groupby_sum_snoc (rows : list (option Timestamp * Q))
  (row : option Timestamp * Q) :
  groupby_sum (rows ++ [row]) =
  match fst row with
  | Some k => add_group k (snd row) (groupby_sum rows)
  | None => groupby_sum rows
  end.
Proof. unfold groupby_sum. now rewrite fold_left_app. Qed.

Lemma group_total_snoc (d : Timestamp) (rows : list (option Timestamp * Q))
  (row : option Timestamp * Q) :
  group_total d (rows ++ [row]) =
  if has_key d row then (group_total d rows + snd row)%Q else group_total d rows.
Proof.
  unfold group_total. rewrite filter_app. simpl.
  destruct (has_key d row); simpl.
  - now rewrite map_app, fold_left_app.
  - now rewrite app_nil_r.
Qed.

Lemma group_total_nil (d : Timestamp) (rows : list (option Timestamp * Q)) :
  existsb (has_key d) rows = false -> group_total d rows = 0%Q.
Proof.
  intros H. unfold group_total.
  replace (filter (has_key d) rows) with (@nil (option Timestamp * Q));
    [reflexivity |].
  induction rows as [| row rows IH]; simpl in *; [reflexivity |].
  apply orb_false_iff in H as [H1 H2]. rewrite H1. now apply IH.
Qed.

Lemma loc_groupby_sum (d : Timestamp) (rows : list (option Timestamp * Q)) :
  loc d (groupby_sum rows) =
  if existsb (has_key d) rows then Some (group_total d rows) else None.
Proof.
  induction rows as [| row rows IH] using rev_ind; [reflexivity |].
  rewrite groupby_sum_snoc, group_total_snoc, existsb_app. simpl.
  rewrite orb_false_r. destruct row as [[k |] v]; simpl.
  - change (has_key d (Some k, v)) with (ts_eqb k d).
    rewrite loc_add_group. destruct (ts_eqb k d) eqn:E.
    + apply ts_eqb_eq in E. subst k. rewrite IH, orb_true_r.
      destruct (existsb (has_key d) rows) eqn:Ex; [reflexivity |].
      now rewrite group_total_nil.
    + now rewrite IH, orb_false_r.
  - change (has_key d (None, v)) with false. now rewrite IH, orb_false_r.
Qed.

Lemma NoDup_groupby_sum (rows : list (option Timestamp * Q)) :
  NoDup (index (groupby_sum rows)).
Proof.
  induction rows as [| row rows IH] using rev_ind; [constructor |].
  rewrite groupby_sum_snoc. destruct (fst row); [| exact IH].
  now apply NoDup_add_group.
Qed.

Lemma In_insert_sorted (e e' : Timestamp * Q) (s : Series Q) :
  In e (insert_sorted e' s) <-> e = e' \/ In e s.
Proof.
  induction s as [| x s IH]; simpl; [intuition congruence |].
  destruct (ts_leb (fst e') (fst x)); simpl; [intuition congruence |].
  rewrite IH. intuition congruence.
Qed.

Lemma In_sort_index (e : Timestamp * Q) (s : Series Q) :
  In e (sort_index s) <-> In e s.
Proof.
  induction s as [| x s IH]; simpl; [tauto |].
  rewrite In_insert_sorted, IH. intuition congruence.
Qed.

Lemma In_index {V : Type} (d : Timestamp) (s : Series V) :
  In d (index s) <-> exists v, In (d, v) s.
Proof.
  unfold index. rewrite in_map_iff. split.
  - intros [[k v] [E H]]. simpl in E. subst. now exists v.
  - intros [v H]. now exists (d, v).
Qed.

Lemma sorted_insert_sorted (e : Timestamp * Q) (s : Series Q) :
  StronglySorted ts_lt (index s) -> ~ In (fst e) (index s) ->
  StronglySorted ts_lt (index (insert_sorted e s)).
Proof.
  induction s as [| x s IH]; simpl; intros Hs Hn.
  - repeat constructor.
  - inversion Hs as [| ? ? Hs' Hx]; subst.
    destruct (ts_leb (fst e) (fst x)) eqn:E; simpl.
    + apply ts_leb_le in E.
      assert (Hlt : ts_lt (fst e) (fst x)) by (apply ts_le_lt_neq; intuition).
      constructor; [exact Hs |]. constructor; [exact Hlt |].
      eapply Forall_impl; [| exact Hx]. intros a. now apply ts_lt_trans.
    + apply ts_leb_gt in E. constructor.
      * apply IH; [exact Hs' | intuition].
      * apply Forall_forall. intros k Hk. apply In_index in Hk as [v Hk].
        apply In_insert_sorted in Hk as [Hk | Hk].
        -- now subst e.
        -- rewrite Forall_forall in Hx. apply Hx.
           change k with (fst (k, v)). now apply in_map.
Qed.

Lemma sorted_sort_index (s : Series Q) :
  NoDup (index s) -> StronglySorted ts_lt (index (sort_index s)).
Proof.
  induction s as [| x s IH]; simpl; intros Hnd; [constructor |].
  inversion Hnd as [| ? ? Hx Hs]; subst.
  apply sorted_insert_sorted; [now apply IH |].
  intros Hin. apply Hx. apply In_index in Hin as [v Hin].
  apply (proj1 (In_sort_index _ _)) in Hin. apply In_index. now exists v.
Qed.

Lemma sorted_NoDup (l : list Timestamp) : StronglySorted ts_lt l -> NoDup l.
Proof.
  induction 1 as [| a l Hs IH Ha]; constructor; [| exact IH].
  intros Hin. rewrite Forall_forall in Ha. now apply Ha, ts_lt_irrefl in Hin.
Qed.

(** ** The aggregator *)

Lemma to_datetime_column_Ok (data : list raw_record) :
  Forall accepted data ->
  to_datetime_column (map record_date data) = Ok (map key data).
Proof.
  induction 1 as [| r data Hr _ IH]; simpl; [reflexivity |].
  unfold accepted in Hr. unfold key at 1.
  destruct (to_datetime (record_date r)); [| | contradiction];
    now rewrite IH.
Qed.

Lemma to_datetime_column_Raise (data : list raw_record) :
  ~ Forall accepted data ->
  to_datetime_column (map record_date data) = Raise ValueError.
Proof.
  induction data as [| r data IH]; simpl; intros H.
  - exfalso. apply H. constructor.
  - assert (Hr : accepted r -> ~ Forall accepted data).
    { intros Hr HF. apply H. now constructor. }
    unfold accepted in Hr.
    destruct (to_datetime (record_date r)) eqn:E; [| | reflexivity];
      (rewrite IH; [reflexivity | apply Hr; congruence]).
Qed.

Lemma accepted_dec (data : list raw_record) :
  {Forall accepted data} + {~ Forall accepted data}.
Proof.
  apply Forall_dec. intros r. unfold accepted.
  destruct (to_datetime (record_date r));
    [left | left | right]; congruence.
Qed.

Lemma combine_map_map {A B C : Type} (f : A -> B) (g : A -> C) (l : list A) :
  combine (map f l) (map g l) = map (fun x => (f x, g x)) l.
Proof. induction l; simpl; congruence. Qed.

Lemma to_numeric_column_amount (data : list raw_record) :
  to_numeric_column (map transaction_today_amt data) = map amount data.
Proof. unfold to_numeric_column. rewrite map_map. reflexivity. Qed.

(** The daily series of a list of records that has a first record and no
    rejected date. *)
Lemma daily_Ok (data : list raw_record) :
  data <> [] -> Forall accepted data ->
  daily data =
  Ok (sort_index (groupby_sum (map (fun r => (key r, amount r)) data))).
Proof.
  intros Hne Hacc. unfold daily.
  destruct data as [| r data]; [contradiction |].
  cbn [get_column bind]. rewrite (to_datetime_column_Ok _ Hacc).
  cbn [bind]. now rewrite to_numeric_column_amount, combine_map_map.
Qed.

Lemma daily_Ok_inv (data : list raw_record) (s : Series Q) :
  daily data = Ok s ->
  data <> [] /\ Forall accepted data /\
  s = sort_index (groupby_sum (map (fun r => (key r, amount r)) data)).
Proof.
  intros H. destruct data as [| r data]; [discriminate |].
  destruct (accepted_dec (r :: data)) as [Hacc | Hrej].
  - rewrite daily_Ok in H by (congruence || assumption).
    injection H as <-. repeat split; [congruence | exact Hacc].
  - unfold daily in H. cbn [get_column bind] in H.
    rewrite (to_datetime_column_Raise _ Hrej) in H. discriminate.
Qed.

Lemma has_key_bears (d : Timestamp) (r : raw_record) :
  has_key d (key r, amount r) = bears d r.
Proof.
  unfold has_key, bears, key. simpl.
  now destruct (to_datetime (record_date r)).
Qed.

Lemma existsb_rows (d : Timestamp) (data : list raw_record) :
  existsb (has_key d) (map (fun r => (key r, amount r)) data) = true <->
  exists r, In r data /\ to_datetime (record_date r) = Stamp d.
Proof.
  rewrite existsb_exists. split.
  - intros [row [Hin Hk]]. apply in_map_iff in Hin as [r [<- Hr]].
    exists r. split; [exact Hr |]. rewrite has_key_bears in Hk.
    unfold bears in Hk. destruct (to_datetime (record_date r)); try discriminate.
    apply ts_eqb_eq in Hk. now subst.
  - intros [r [Hr E]]. exists (key r, amount r). split; [now apply (in_map (fun r => (key r, amount r))) |].
    rewrite has_key_bears. unfold bears. rewrite E. apply ts_eqb_refl.
Qed.

Lemma group_total_rows (d : Timestamp) (data : list raw_record) :
  group_total d (map (fun r => (key r, amount r)) data) = sum_for_date d data.
Proof.
  unfold group_total, sum_for_date. f_equal.
  induction data as [| r data IH]; simpl; [reflexivity |].
  rewrite has_key_bears. destruct (bears d r); simpl; now rewrite IH.
Qed.

(** C1: when the aggregator returns a daily series, the dates of its index
    are in strictly ascending order, hence without repeats; a date is in the
    index exactly when some record bears it; and its value is the sum, in
    record order, of the amounts of the records bearing it, an amount that
    fails numeric parsing counting for zero. *)
Theorem daily_one_entry_per_date_with_sum (data : list raw_record)
  (s : Series Q) :
  daily data = Ok s ->
  StronglySorted ts_lt (index s) /\
  NoDup (index s) /\
  (forall d, In d (index s) <->
             exists r, In r data /\ to_datetime (record_date r) = Stamp d) /\
  (forall d v, In (d, v) s -> v = sum_for_date d data) /\
  (forall r, to_numeric (transaction_today_amt r) = None -> amount r = 0%Q).
Proof.
  intros H. apply daily_Ok_inv in H as (_ & _ & ->).
  set (rows := map (fun r => (key r, amount r)) data).
  assert (Hs : StronglySorted ts_lt (index (sort_index (groupby_sum rows))))
    by apply sorted_sort_index, NoDup_groupby_sum.
  assert (Hloc : forall d v, In (d, v) (sort_index (groupby_sum rows)) ->
                             loc d (groupby_sum rows) = Some v).
  { intros d v Hin. apply In_loc; [apply NoDup_groupby_sum |].
    now apply In_sort_index. }
  split; [exact Hs |]. split; [now apply sorted_NoDup |].
  split; [| split].
  - intros d. rewrite <- existsb_rows. fold rows. rewrite In_index. split.
    + intros [v Hin]. apply Hloc in Hin. rewrite loc_groupby_sum in Hin.
      now destruct (existsb (has_key d) rows).
    + intros E. exists (group_total d rows). apply In_sort_index, loc_In.
      now rewrite loc_groupby_sum, E.
  - intros d v Hin. apply Hloc in Hin. rewrite loc_groupby_sum in Hin.
    destruct (existsb (has_key d) rows); [| discriminate].
    injection Hin as <-. apply group_total_rows.
  - intros r E. unfold amount. now rewrite E.
Qed.

(** ** The download loop *)

Local Open Scope list_scope.

(** The loop on a server that answers [full], a run of pages of at least 500
    records each, from page [page] on, and then the short page [last]: it
    stops after the short page, with every record and one request a page. *)
Lemma fetch_loop_pages (full : list (list raw_record)) (last : list raw_record) :
  forall (fuel : nat) (current_year : Z) (page : nat)
         (data : list raw_record) (log : list request),
  (forall i, (i < List.length full)%nat ->
     server (mkRequest current_year 500 (page + i)) = HttpData (nth i full [])) ->
  Forall (fun chunk => (500 <= List.length chunk)%nat) full ->
  server (mkRequest current_year 500 (page + List.length full)) = HttpData last ->
  (List.length last < 500)%nat ->
  (List.length full < fuel)%nat ->
  fetch_loop fuel current_year page data log =
  Some (Ok (data ++ List.concat full ++ last),
        log ++ map (mkRequest current_year 500) (seq page (S (List.length full)))).
Proof.
  induction full as [| chunk full IH];
    intros fuel current_year page data log Hfull Hsize Hlast Hshort Hfuel;
    (destruct fuel as [| fuel]; [simpl in Hfuel; lia |]).
  - simpl in Hlast. rewrite Nat.add_0_r in Hlast.
    simpl. rewrite Hlast. destruct last as [| r last].
    + now rewrite app_nil_r.
    + apply Nat.ltb_lt in Hshort. now rewrite Hshort.
  - inversion Hsize as [| ? ? Hchunk Hsize']; subst.
    assert (H0 := Hfull 0%nat ltac:(simpl; lia)).
    rewrite Nat.add_0_r in H0. simpl in H0.
    cbn [fetch_loop]. rewrite H0.
    destruct chunk as [| r chunk]; [simpl in Hchunk; lia |].
    assert (E : Nat.ltb (List.length (r :: chunk)) 500 = false)
      by (apply Nat.ltb_ge; exact Hchunk).
    rewrite E.
    rewrite (IH fuel current_year (S page) (data ++ r :: chunk)
               (log ++ [mkRequest current_year 500 page])).
    + f_equal. f_equal.
      * cbn [List.concat]. now rewrite <- !app_assoc.
      * rewrite <- app_assoc. reflexivity.
    + intros i Hi. specialize (Hfull (S i) ltac:(simpl; lia)).
      simpl in Hfull. now rewrite Nat.add_succ_r in Hfull.
    + exact Hsize'.
    + simpl in Hlast. now rewrite Nat.add_succ_r in Hlast.
    + exact Hshort.
    + simpl in Hfuel. lia.
Qed.

(** X1, the pagination of the fetcher: pages 1, 2, ... are requested with page
    size 500 until the first page with fewer than 500 records (an empty page
    included); the result is the concatenation of the pages, and the requests
    are those for page 1 up to the short page, one each.  The loop ends: any
    fuel above the number of full pages reaches the [break]. *)
Theorem fetch_pages (full : list (list raw_record)) (last : list raw_record)
  (fuel : nat) (current_year : Z) :
  (forall i, (i < List.length full)%nat ->
     server (mkRequest current_year 500 (1 + i)) = HttpData (nth i full [])) ->
  Forall (fun chunk => (500 <= List.length chunk)%nat) full ->
  server (mkRequest current_year 500 (1 + List.length full)) = HttpData last ->
  (List.length last < 500)%nat ->
  (List.length full < fuel)%nat ->
  fetch fuel current_year =
  Some (Ok (List.concat full ++ last),
        map (mkRequest current_year 500) (seq 1 (S (List.length full)))).
Proof.
  intros Hfull Hsize Hlast Hshort Hfuel. unfold fetch.
  now rewrite (fetch_loop_pages full last fuel current_year 1 [] []
                 Hfull Hsize Hlast Hshort Hfuel).
Qed.

(** X2, pages of 500, 500 and 237 records: exactly three requests, for pages 1, 2
    and 3, and the records of the three pages in order. *)
Theorem fetch_three_pages (p1 p2 p3 : list raw_record) (fuel : nat)
  (current_year : Z) :
  List.length p1 = 500%nat -> List.length p2 = 500%nat ->
  List.length p3 = 237%nat ->
  server (mkRequest current_year 500 1) = HttpData p1 ->
  server (mkRequest current_year 500 2) = HttpData p2 ->
  server (mkRequest current_year 500 3) = HttpData p3 ->
  fetch (3 + fuel) current_year =
  Some (Ok (p1 ++ p2 ++ p3),
        [mkRequest current_year 500 1; mkRequest current_year 500 2;
         mkRequest current_year 500 3]).
Proof.
  intros L1 L2 L3 S1 S2 S3. unfold fetch.
  rewrite (fetch_loop_pages [p1; p2] p3).
  - cbn [List.concat]. now rewrite app_nil_r, <- app_assoc.
  - intros [| [| i]] Hi; simpl in *; [assumption | assumption | lia].
  - repeat constructor; lia.
  - exact S3.
  - lia.
  - simpl. lia.
Qed.

(** A failure status on the first request ends the run with HTTPError. *)
Lemma fetch_http_failure (fuel : nat) (current_year : Z) :
  server (mkRequest current_year 500 1) = HttpFailure ->
  fetch (S fuel) current_year =
  Some (Raise HTTPError, [mkRequest current_year 500 1]).
Proof. intros H. unfold fetch. simpl. now rewrite H. Qed.

(** C9: when the first page comes back empty, the download ends after one
    request with no record at all; the record table then has no
    [record_date] column, selecting it raises KeyError, and the script ends
    with that exception instead of an empty daily series and a report. *)
Theorem no_records_raise_KeyError (fuel : nat) (today : Timestamp) :
  server (mkRequest (year today) 500 1) = HttpData [] ->
  fetch (S fuel) (year today) =
    Some (Ok [], [mkRequest (year today) 500 1]) /\
  daily [] = Raise (KeyError "record_date") /\
  main (S fuel) today = Some (Raise (KeyError "record_date")).
Proof.
  intros H.
  assert (F : fetch (S fuel) (year today) =
              Some (Ok [], [mkRequest (year today) 500 1])).
  { unfold fetch. simpl. now rewrite H. }
  split; [exact F |]. split; [reflexivity |].
  unfold main. now rewrite F.
Qed.

(** ** The summary *)

Lemma fold_left_Qplus (l : list Q) (a : Q) :
  (fold_left Qplus l a == a + fold_right Qplus 0 l)%Q.
Proof.
  revert a. induction l as [| x l IH]; intros a; simpl.
  - now rewrite Qplus_0_r.
  - rewrite IH. now rewrite Qplus_assoc.
Qed.

Lemma series_sum_between (lo hi : Timestamp) (s : Series Q) :
  (series_sum (between lo hi s) == total_within lo hi s)%Q.
Proof.
  unfold series_sum. rewrite fold_left_Qplus, Qplus_0_l.
  induction s as [| [t v] s IH]; simpl; [reflexivity |].
  destruct (ts_le_dec lo t) as [H1 | H1], (ts_le_dec t hi) as [H2 | H2];
    rewrite <- ?ts_leb_le in H1, H2;
    try apply not_true_is_false in H1; try apply not_true_is_false in H2;
    rewrite H1, ?H2; simpl; rewrite ?IH; reflexivity.
Qed.

(** C3: the year-to-date sum is the sum of the values of the series dated
    from January 1 of the current year to today, both included; the
    month-to-date sum is that of the values dated from the first of the
    current month to today, both included. *)
Theorem ytd_mtd_are_interval_sums (s : Series Q) (today : Timestamp) :
  (ytd s today == total_within (mkTimestamp (year today) 1 1) today s)%Q /\
  (mtd s today ==
   total_within (mkTimestamp (year today) (month today) 1) today s)%Q.
Proof. split; apply series_sum_between. Qed.

Lemma Qltb_lt (x y : Q) : Qltb x y = true <-> (x < y)%Q.
Proof.
  unfold Qltb. rewrite Qlt_alt. destruct (x ?= y)%Q; split; congruence.
Qed.

Lemma Qltb_ge (x y : Q) : Qltb x y = false <-> (y <= x)%Q.
Proof.
  rewrite <- not_true_iff_false, Qltb_lt. split.
  - apply Qnot_lt_le.
  - apply Qle_not_lt.
Qed.

(** C4: when the year-to-date sum is zero or negative, both percentages are
    None, and the report shows both as N/A. *)
Theorem nonpositive_ytd_gives_no_percentage (s : Series Q) (today : Timestamp) :
  (ytd s today <= 0)%Q ->
  pct_today_ytd s today = None /\
  pct_mtd_ytd s today = None /\
  nth_error (report s today) 5 = Some "% Today / YTD:     N/A"%string /\
  nth_error (report s today) 6 = Some "% Month / YTD:     N/A"%string.
Proof.
  intros H. apply Qltb_ge in H.
  assert (H1 : pct_today_ytd s today = None).
  { unfold pct_today_ytd. rewrite H. now destruct (today_value s today). }
  assert (H2 : pct_mtd_ytd s today = None).
  { unfold pct_mtd_ytd. now rewrite H. }
  repeat split; try assumption; unfold report; cbn [nth_error];
    now rewrite ?H1, ?H2.
Qed.

(** C8, as the code has it: the test [ytd > 0] guards a negative
    year-to-date sum as it guards zero, so both percentages are None there,
    today's value present or not. *)
Theorem negative_ytd_gives_no_percentage (s : Series Q) (today : Timestamp) :
  (ytd s today < 0)%Q ->
  pct_mtd_ytd s today = None /\ pct_today_ytd s today = None.
Proof.
  intros H. apply Qlt_le_weak, Qltb_ge in H.
  unfold pct_mtd_ytd, pct_today_ytd. rewrite H.
  now destruct (today_value s today).
Qed.

(** Where the percentages are defined: exactly for a positive sum. *)
Lemma positive_ytd_gives_percentages (s : Series Q) (today : Timestamp) :
  (0 < ytd s today)%Q ->
  pct_mtd_ytd s today = Some (mtd s today / ytd s today * 100)%Q /\
  pct_today_ytd s today =
  option_map (fun v => v / ytd s today * 100)%Q (today_value s today).
Proof.
  intros H. apply Qltb_lt in H. unfold pct_mtd_ytd, pct_today_ytd.
  rewrite H. now destruct (today_value s today).
Qed.

Lemma index_contains_false {V : Type} (d : Timestamp) (s : Series V) :
  ~ In d (index s) -> index_contains d s = false.
Proof.
  intros H. apply not_true_is_false. now rewrite index_contains_In.
Qed.

(** C6: when today's date is not in the index of the daily series, today's
    value is None, the warning line is printed first, the report carries the
    line "Data not available." in place of an amount, and the run goes on to
    its end: every list of records with that daily series gives a result. *)
Theorem missing_today_is_reported (s : Series Q) (today : Timestamp) :
  ~ In today (index s) ->
  today_value s today = None /\
  warning s today =
    ["Warning: No data found for today " ++ strftime today ++ "."]%string /\
  nth_error (report s today) 2 =
    Some "Today's value:     Data not available."%string /\
  stdout (summarize s today) =
    ("Warning: No data found for today " ++ strftime today ++ ".")%string
      :: report s today /\
  (forall data, daily data = Ok s ->
                run_on data today = Ok (summarize s today)).
Proof.
  intros H. apply index_contains_false in H.
  assert (T : today_value s today = None).
  { unfold today_value. now rewrite H. }
  assert (W : warning s today =
    ["Warning: No data found for today " ++ strftime today ++ "."]%string).
  { unfold warning. now rewrite H. }
  repeat split; try assumption.
  - unfold report. cbn [nth_error]. now rewrite T.
  - unfold summarize. cbn [stdout]. now rewrite W.
  - intros data D. unfold run_on. now rewrite D.
Qed.

(** C7, as the code has it: a record whose date string [pd.to_datetime]
    rejects makes the aggregation raise, and the run with it; a list of
    records that is not empty and holds no such string always runs to its
    end; and whether a run fails depends on the date strings alone, never on
    an amount string. *)
Theorem rejected_date_raises_amount_never (data : list raw_record)
  (today : Timestamp) :
  ((exists r, In r data /\ to_datetime (record_date r) = Unparseable) ->
   daily data = Raise ValueError /\ run_on data today = Raise ValueError) /\
  (data <> [] ->
   (forall r, In r data -> to_datetime (record_date r) <> Unparseable) ->
   exists s, daily data = Ok s /\ run_on data today = Ok (summarize s today)) /\
  (forall data', map record_date data' = map record_date data ->
                 is_ok (run_on data' today) = is_ok (run_on data today)).
Proof.
  assert (R : forall l, ~ Forall accepted l -> l <> [] ->
                        daily l = Raise ValueError).
  { intros l Hl Hne. unfold daily. destruct l as [| r l]; [contradiction |].
    cbn [get_column bind]. now rewrite (to_datetime_column_Raise _ Hl). }
  split; [| split].
  - intros (r & Hin & E).
    assert (D : daily data = Raise ValueError).
    { apply R.
      - intros HF. rewrite Forall_forall in HF. now apply (HF r Hin).
      - now destruct data. }
    split; [exact D |]. unfold run_on. now rewrite D.
  - intros Hne Hacc. apply Forall_forall in Hacc. eexists. split.
    + now apply daily_Ok.
    + unfold run_on. now rewrite daily_Ok.
  - intros data' E. unfold run_on.
    destruct data as [| r data], data' as [| r' data']; try discriminate;
      [reflexivity |].
    assert (A : Forall accepted (r' :: data') <-> Forall accepted (r :: data)).
    { rewrite !Forall_forall. unfold accepted.
      split; intros HF x Hx;
        apply (in_map record_date) in Hx;
        [rewrite <- E in Hx | rewrite E in Hx];
        apply in_map_iff in Hx as (y & Ey & Hy); rewrite <- Ey;
        now apply HF. }
    destruct (accepted_dec (r :: data)) as [H | H].
    + rewrite !daily_Ok by (congruence || tauto). reflexivity.
    + rewrite !R by (congruence || tauto). reflexivity.
Qed.

(** ** The percent-change series *)

Lemma firstn_length_cons {A : Type} (x y : A) (l : list A) :
  firstn (List.length (y :: l)) (x :: y :: l) =
  x :: firstn (List.length l) (y :: l).
Proof. reflexivity. Qed.

Lemma series_pct_change_changes (s : Series Q) :
  series_pct_change s = changes NaN s.
Proof.
  unfold series_pct_change, shift1. generalize NaN as prev.
  induction s as [| [d v] s IH]; intros prev; [reflexivity |].
  cbn [changes]. rewrite <- IH. reflexivity.
Qed.

Lemma nth_error_changes (s : Series Q) :
  forall (prev : float64) (i : nat) (dp d : Timestamp) (p c : Q),
  nth_error s i = Some (dp, p) -> nth_error s (S i) = Some (d, c) ->
  nth_error (changes prev s) (S i) =
  Some (d, fsub (fdiv (Finite c) (Finite p)) (Finite 1)).
Proof.
  induction s as [| [d0 v0] s IH]; intros prev i dp d p c Hp Hc;
    [destruct i; discriminate |].
  destruct i as [| i].
  - injection Hp as <- <-. destruct s as [| [d1 v1] s]; [discriminate |].
    now injection Hc as <- <-.
  - cbn [changes nth_error]. now apply (IH _ i dp).
Qed.

Lemma index_changes (s : Series Q) (prev : float64) :
  index (changes prev s) = index s.
Proof.
  revert prev. induction s as [| [d v] s IH]; intros prev; simpl;
    [reflexivity | now rewrite IH].
Qed.

Lemma nth_error_pct_change (s : Series Q) (i : nat) (dp d : Timestamp)
  (p c : Q) :
  nth_error s i = Some (dp, p) -> nth_error s (S i) = Some (d, c) ->
  nth_error (pct_change s) (S i) =
  Some (d, fmul (fsub (fdiv (Finite c) (Finite p)) (Finite 1)) (Finite 100)).
Proof.
  intros Hp Hc. unfold pct_change.
  rewrite series_pct_change_changes, nth_error_map.
  now rewrite (nth_error_changes s NaN i dp d p c Hp Hc).
Qed.

Lemma Qcompare_minus_zero (c p : Q) :
  (p == 0)%Q -> ((c - p ?= 0) = (c ?= 0))%Q.
Proof.
  intros H. apply Qcompare_comp; [| reflexivity].
  rewrite H. unfold Qminus. setoid_replace (- 0)%Q with 0%Q by reflexivity.
  apply Qplus_0_r.
Qed.

(** The change as pandas computes it, [c / p - 1] times 100, is the change
    of the spec, [(c - p) / p * 100], also when [p] is zero. *)
Lemma change_formula (c p : Q) :
  feq (fmul (fsub (fdiv (Finite c) (Finite p)) (Finite 1)) (Finite 100))
      (fmul (fdiv (fsub (Finite c) (Finite p)) (Finite p)) (Finite 100)).
Proof.
  cbn [fsub fdiv]. destruct (Qeq_bool p 0) eqn:E.
  - apply Qeq_bool_iff in E. rewrite (Qcompare_minus_zero c p E).
    destruct (c ?= 0)%Q; exact I.
  - apply Qeq_bool_neq in E. cbn. field. exact E.
Qed.

(** C5: the percent-change series has the index of the daily series; its
    first value is NaN, the undefined value; the value at every later date is
    [(c - p) / p * 100], for [c] the total of that date and [p] the total of
    the date just before it; and for the series of 100 on January 1 and 150
    on January 2 the value for January 2 is 50. *)
Theorem pct_change_is_relative_change (s : Series Q) :
  index (pct_change s) = index s /\
  (forall d v rest, s = (d, v) :: rest ->
     nth_error (pct_change s) 0 = Some (d, NaN)) /\
  (forall i dp p d c,
     nth_error s i = Some (dp, p) -> nth_error s (S i) = Some (d, c) ->
     exists x, nth_error (pct_change s) (S i) = Some (d, x) /\
       feq x (fmul (fdiv (fsub (Finite c) (Finite p)) (Finite p)) (Finite 100))) /\
  (exists x,
     loc (mkTimestamp 2024 1 2)
         (pct_change [(mkTimestamp 2024 1 1, 100%Q); (mkTimestamp 2024 1 2, 150%Q)])
     = Some x /\ feq x (Finite 50)).
Proof.
  split; [| split; [| split]].
  - unfold pct_change. rewrite series_pct_change_changes.
    unfold index. rewrite map_map. cbn [fst].
    exact (index_changes s NaN).
  - intros d v rest ->. reflexivity.
  - intros i dp p d c Hp Hc. eexists. split.
    + now apply (nth_error_pct_change s i dp d p c).
    + apply change_formula.
  - eexists. split; [reflexivity | reflexivity].
Qed.

(** C10: where a total is zero and a date follows it in the series, the
    percent change at that next date is the quotient by zero, unguarded: the
    value is there, and it is an infinity or NaN, not a finite number. *)
Theorem zero_total_gives_nonfinite_change (s : Series Q) (i : nat)
  (dp d : Timestamp) (p c : Q) :
  nth_error s i = Some (dp, p) -> (p == 0)%Q ->
  nth_error s (S i) = Some (d, c) ->
  exists x, nth_error (pct_change s) (S i) = Some (d, x) /\
            is_finite x = false /\
            x = inf_of_sign (c ?= 0)%Q.
Proof.
  intros Hp Hz Hc. eexists. split.
  - now apply (nth_error_pct_change s i dp d p c).
  - apply Qeq_bool_iff in Hz. cbn [fdiv]. rewrite Hz.
    destruct (c ?= 0)%Q; split; reflexivity.
Qed.

(** ** The download loop on any server *)

(** A run of full pages is walked through, one iteration a page. *)
Lemma fetch_loop_full_prefix (full : list (list raw_record)) :
  forall (fuel : nat) (current_year : Z) (page : nat)
         (data : list raw_record) (log : list request),
  (forall i, (i < List.length full)%nat ->
     server (mkRequest current_year 500 (page + i)) = HttpData (nth i full [])) ->
  Forall (fun chunk => (500 <= List.length chunk)%nat) full ->
  fetch_loop (List.length full + fuel) current_year page data log =
  fetch_loop fuel current_year (page + List.length full)
    (data ++ List.concat full)
    (log ++ map (mkRequest current_year 500) (seq page (List.length full))).
Proof.
  induction full as [| chunk full IH];
    intros fuel current_year page data log Hfull Hsize.
  - simpl. now rewrite Nat.add_0_r, !app_nil_r.
  - inversion Hsize as [| ? ? Hchunk Hsize']; subst.
    assert (H0 := Hfull 0%nat ltac:(simpl; lia)).
    rewrite Nat.add_0_r in H0. simpl in H0.
    cbn [List.length Nat.add fetch_loop]. rewrite H0.
    destruct chunk as [| r chunk]; [simpl in Hchunk; lia |].
    assert (E : Nat.ltb (List.length (r :: chunk)) 500 = false)
      by (apply Nat.ltb_ge; exact Hchunk).
    rewrite E, IH.
    + cbn [List.concat seq map]. rewrite <- !app_assoc, Nat.add_succ_r.
      reflexivity.
    + intros i Hi. specialize (Hfull (S i) ltac:(simpl; lia)).
      simpl in Hfull. now rewrite Nat.add_succ_r in Hfull.
    + exact Hsize'.
Qed.

(** X3: a failure status on any page ends the download with HTTPError, one
    request after the full pages before it; the records of those pages are
    dropped with it, and the script ends with HTTPError: nothing is
    aggregated or printed. *)
Theorem http_failure_aborts_run (full : list (list raw_record)) (fuel : nat)
  (today : Timestamp) :
  (forall i, (i < List.length full)%nat ->
     server (mkRequest (year today) 500 (1 + i)) = HttpData (nth i full [])) ->
  Forall (fun chunk => (500 <= List.length chunk)%nat) full ->
  server (mkRequest (year today) 500 (1 + List.length full)) = HttpFailure ->
  fetch (List.length full + S fuel) (year today) =
    Some (Raise HTTPError,
          map (mkRequest (year today) 500) (seq 1 (S (List.length full)))) /\
  main (List.length full + S fuel) today = Some (Raise HTTPError).
Proof.
  intros Hfull Hsize Hfail.
  assert (F : fetch (List.length full + S fuel) (year today) =
    Some (Raise HTTPError,
          map (mkRequest (year today) 500) (seq 1 (S (List.length full))))).
  { unfold fetch. rewrite (fetch_loop_full_prefix full _ _ _ _ _ Hfull Hsize).
    cbn [fetch_loop]. rewrite Hfail. cbn [app].
    now rewrite seq_S, map_app. }
  split; [exact F |]. unfold main. now rewrite F.
Qed.

(** What one call of the loop adds to its state, whatever the server does. *)
Lemma fetch_loop_trace (fuel : nat) :
  forall (current_year : Z) (page : nat) (data : list raw_record)
         (log : list request) (r : result (list raw_record))
         (log' : list request),
  fetch_loop fuel current_year page data log = Some (r, log') ->
  exists n, (1 <= n)%nat /\ (n <= fuel)%nat /\
    log' = log ++ map (mkRequest current_year 500) (seq page n) /\
    match r with
    | Ok out =>
        out = data ++ flat_map served (map (mkRequest current_year 500) (seq page n))
    | Raise e => e = HTTPError
    end.
Proof.
  induction fuel as [| fuel IH]; intros current_year page data log r log' H;
    [discriminate |].
  cbn [fetch_loop] in H.
  destruct (server (mkRequest current_year 500 page)) as [| chunk] eqn:Hs.
  - injection H as <- <-. exists 1%nat. repeat split; lia.
  - destruct chunk as [| rec chunk].
    + injection H as <- <-. exists 1%nat. repeat split; try lia.
      cbn. unfold served. rewrite Hs. now rewrite !app_nil_r.
    + destruct (Nat.ltb (List.length (rec :: chunk)) 500).
      * injection H as <- <-. exists 1%nat. repeat split; try lia.
        cbn [seq map flat_map]. unfold served. rewrite Hs.
        now rewrite app_nil_r.
      * apply IH in H as (n & Hn1 & Hn2 & Hlog & Hr).
        exists (S n). split; [lia |]. split; [lia |]. split.
        -- rewrite Hlog, <- app_assoc. reflexivity.
        -- destruct r as [out | e]; [| exact Hr].
           rewrite Hr. cbn [seq map flat_map]. unfold served at 2.
           rewrite Hs. now rewrite <- app_assoc.
Qed.

(** X4: whatever the server answers, when the download ends it has issued
    between one request and [fuel] requests, for the pages 1, 2, ..., n in
    order, each with page size 500 and the year of the run; on success the
    records are those of the answers, page after page, and the only exception
    it can end with is HTTPError. *)
Theorem fetch_requests_and_records (fuel : nat) (current_year : Z)
  (r : result (list raw_record)) (log : list request) :
  fetch fuel current_year = Some (r, log) ->
  exists n, (1 <= n)%nat /\ (n <= fuel)%nat /\
    log = map (mkRequest current_year 500) (seq 1 n) /\
    match r with
    | Ok data => data = flat_map served log
    | Raise e => e = HTTPError
    end.
Proof.
  intros H. apply fetch_loop_trace in H as (n & H1 & H2 & Hlog & Hr).
  exists n. cbn [app] in Hlog, Hr. rewrite <- Hlog in Hr. now repeat split.
Qed.

Lemma fetch_loop_full_forever (current_year : Z) :
  (forall page, exists chunk,
      server (mkRequest current_year 500 page) = HttpData chunk /\
      (500 <= List.length chunk)%nat) ->
  forall fuel page data log,
    fetch_loop fuel current_year page data log = None.
Proof.
  intros Hfull. induction fuel as [| fuel IH]; intros page data log;
    [reflexivity |].
  destruct (Hfull page) as (chunk & Hs & L). cbn [fetch_loop]. rewrite Hs.
  destruct chunk as [| r chunk]; [simpl in L; lia |].
  apply Nat.ltb_ge in L. rewrite L. apply IH.
Qed.

(** X5: the loop has no bound of its own: on a server that answers every
    page with at least 500 records it never reaches a [break], so no number
    of iterations ends the download, and the script prints nothing. *)
Theorem full_pages_forever_never_stop (today : Timestamp) :
  (forall page, exists chunk,
      server (mkRequest (year today) 500 page) = HttpData chunk /\
      (500 <= List.length chunk)%nat) ->
  forall fuel,
    fetch fuel (year today) = None /\ main fuel today = None.
Proof.
  intros Hfull fuel.
  assert (F : fetch fuel (year today) = None)
    by apply (fetch_loop_full_forever _ Hfull).
  split; [exact F |]. unfold main. now rewrite F.
Qed.

(** ** The ways a run can end *)

Lemma daily_rejected (data : list raw_record) :
  data <> [] -> ~ Forall accepted data -> daily data = Raise ValueError.
Proof.
  intros Hne Hrej. unfold daily. destruct data as [| r data]; [contradiction |].
  cbn [get_column bind]. now rewrite (to_datetime_column_Raise _ Hrej).
Qed.

(** X6: a run that ends does so in one of four ways, told apart by the
    download and the date strings alone: HTTPError when the download failed;
    KeyError on [record_date] when it returned no record; ValueError when a
    date string is rejected; and otherwise the report and chart of the daily
    series.  No other exception, and none from an amount string. *)
Theorem main_ends_in_one_of_four_ways (fuel : nat) (today : Timestamp)
  (r : result run_output) :
  main fuel today = Some r ->
  exists fetched log,
    fetch fuel (year today) = Some (fetched, log) /\
    match fetched with
    | Raise e => e = HTTPError /\ r = Raise HTTPError
    | Ok [] => r = Raise (KeyError "record_date")
    | Ok data =>
        (~ Forall accepted data /\ r = Raise ValueError) \/
        (Forall accepted data /\
         exists s, daily data = Ok s /\ r = Ok (summarize s today))
    end.
Proof.
  unfold main. destruct (fetch fuel (year today)) as [[fetched log] |] eqn:F;
    [| discriminate].
  intros [= <-]. exists fetched, log. split; [reflexivity |].
  destruct fetched as [data | e].
  - destruct data as [| rec data]; [reflexivity |].
    cbn [bind]. unfold run_on.
    destruct (accepted_dec (rec :: data)) as [Hacc | Hrej].
    + right. split; [exact Hacc |]. eexists. split.
      * apply daily_Ok; [discriminate | exact Hacc].
      * rewrite daily_Ok by (discriminate || exact Hacc). reflexivity.
    + left. split; [exact Hrej |].
      rewrite daily_rejected by (discriminate || exact Hrej). reflexivity.
  - unfold fetch in F. apply fetch_loop_trace in F as (n & _ & _ & _ & He).
    now subst e.
Qed.

(** ** Totals of the daily series *)

Lemma total_app (l l' : list Q) : (total (l ++ l') == total l + total l')%Q.
Proof.
  induction l as [| x l IH]; simpl.
  - now rewrite Qplus_0_l.
  - rewrite IH. apply Qplus_assoc.
Qed.

Lemma series_sum_total (s : Series Q) : (series_sum s == total (values s))%Q.
Proof. unfold series_sum, total. now rewrite fold_left_Qplus, Qplus_0_l. Qed.

Lemma total_filter_add_group (P : Timestamp -> bool) (k : Timestamp) (v : Q)
  (g : Series Q) :
  (total (values (filter (fun e => P (fst e)) (add_group k v g))) ==
   total (values (filter (fun e => P (fst e)) g)) + (if P k then v else 0))%Q.
Proof.
  unfold total, values.
  induction g as [| [k' a] g IH]; cbn [add_group].
  - cbn [filter fst]. destruct (P k); cbn [map snd fold_right]; ring.
  - destruct (ts_eqb k k') eqn:E.
    + apply ts_eqb_eq in E. subst k'. cbn [filter fst].
      destruct (P k); cbn [map snd fold_right]; ring.
    + cbn [filter fst].
      destruct (P k'); cbn [map snd fold_right]; rewrite IH; ring.
Qed.

Lemma total_filter_groupby_sum (P : Timestamp -> bool)
  (rows : list (option Timestamp * Q)) :
  (total (values (filter (fun e => P (fst e)) (groupby_sum rows))) ==
   total (map snd (filter (key_sat P) rows)))%Q.
Proof.
  induction rows as [| row rows IH] using rev_ind; [reflexivity |].
  rewrite groupby_sum_snoc, filter_app, map_app, total_app, <- IH.
  destruct row as [[k |] v]; cbn [fst snd filter key_sat].
  - rewrite total_filter_add_group. unfold total.
    destruct (P k); cbn [map snd fold_right]; ring.
  - unfold total. cbn [map fold_right]. ring.
Qed.

Lemma total_filter_insert_sorted (f : Timestamp * Q -> bool)
  (e : Timestamp * Q) (s : Series Q) :
  (total (values (filter f (insert_sorted e s))) ==
   (if f e then snd e else 0) + total (values (filter f s)))%Q.
Proof.
  unfold total, values.
  induction s as [| x s IH]; cbn [insert_sorted].
  - cbn [filter]. destruct (f e); cbn [map snd fold_right]; ring.
  - destruct (ts_leb (fst e) (fst x)).
    + cbn [filter]. destruct (f e), (f x); cbn [map snd fold_right]; ring.
    + cbn [filter].
      destruct (f x); cbn [map snd fold_right]; rewrite IH; ring.
Qed.

Lemma total_filter_sort_index (f : Timestamp * Q -> bool) (s : Series Q) :
  (total (values (filter f (sort_index s))) == total (values (filter f s)))%Q.
Proof.
  induction s as [| x s IH]; [reflexivity |].
  cbn [sort_index fold_right]. fold (sort_index s).
  rewrite total_filter_insert_sorted, IH. cbn [filter].
  unfold total, values.
  destruct (f x); cbn [map snd fold_right]; ring.
Qed.

Lemma filter_rows (P : Timestamp -> bool) (data : list raw_record) :
  map snd (filter (key_sat P) (map (fun r => (key r, amount r)) data)) =
  map amount
    (filter (fun r => match to_datetime (record_date r) with
                      | Stamp d => P d
                      | _ => false
                      end) data).
Proof.
  induction data as [| r data IH]; [reflexivity |].
  cbn [map filter]. unfold key_sat at 1, key at 1. cbn [fst].
  destruct (to_datetime (record_date r)) as [d | |];
    [destruct (P d) |..]; cbn [map snd]; now rewrite IH.
Qed.

(** The values of a daily series whose date satisfies [P] add up to the
    amounts of the records whose date satisfies [P]. *)
Lemma total_filter_daily (P : Timestamp -> bool) (data : list raw_record)
  (s : Series Q) :
  daily data = Ok s ->
  (total (values (filter (fun e => P (fst e)) s)) ==
   total (map amount
            (filter (fun r => match to_datetime (record_date r) with
                              | Stamp d => P d
                              | _ => false
                              end) data)))%Q.
Proof.
  intros H. apply daily_Ok_inv in H as (_ & _ & ->).
  now rewrite total_filter_sort_index, total_filter_groupby_sum, filter_rows.
Qed.

Lemma filter_true {A : Type} (l : list A) : filter (fun _ => true) l = l.
Proof. induction l; simpl; congruence. Qed.

(** X7: grouping loses nothing and adds nothing: the values of the daily
    series add up to the amounts of all the records that bear a date, an
    amount that fails numeric parsing counting for zero. *)
Theorem daily_conserves_total (data : list raw_record) (s : Series Q) :
  daily data = Ok s ->
  (series_sum s == total (map amount (filter dated data)))%Q.
Proof.
  intros H. rewrite series_sum_total.
  rewrite <- (filter_true s) at 1.
  rewrite (total_filter_daily (fun _ => true) data s H).
  unfold dated. reflexivity.
Qed.

Lemma window_dec (lo hi d : Timestamp) :
  ts_leb lo d && ts_leb d hi =
  if ts_le_dec lo d then (if ts_le_dec d hi then true else false) else false.
Proof.
  destruct (ts_le_dec lo d) as [H1 | H1], (ts_le_dec d hi) as [H2 | H2];
    rewrite <- ?ts_leb_le in H1, H2;
    try apply not_true_is_false in H1; try apply not_true_is_false in H2;
    now rewrite H1, ?H2, ?andb_false_r.
Qed.

Lemma between_total (lo hi : Timestamp) (data : list raw_record)
  (s : Series Q) :
  daily data = Ok s ->
  (series_sum (between lo hi s) ==
   total (map amount (filter (dated_within lo hi) data)))%Q.
Proof.
  intros H. rewrite series_sum_total. unfold between.
  rewrite (total_filter_daily (fun d => ts_leb lo d && ts_leb d hi) data s H).
  unfold dated_within.
  rewrite (filter_ext _ (fun r => match to_datetime (record_date r) with
                                  | Stamp d =>
                                      if ts_le_dec lo d
                                      then (if ts_le_dec d hi then true else false)
                                      else false
                                  | _ => false
                                  end)); [reflexivity |].
  intros r. destruct (to_datetime (record_date r)); try reflexivity.
  apply window_dec.
Qed.

(** X8: from the records to the summary: the year-to-date sum is the sum of
    the amounts of the records dated from January 1 of the current year to
    today, and the month-to-date sum that of the records dated from the first
    of the current month to today; records dated outside the interval, or
    without a date, add nothing. *)
Theorem ytd_mtd_sum_the_records_in_range (data : list raw_record)
  (s : Series Q) (today : Timestamp) :
  daily data = Ok s ->
  (ytd s today ==
   total (map amount
            (filter (dated_within (mkTimestamp (year today) 1 1) today) data)))%Q /\
  (mtd s today ==
   total (map amount
            (filter (dated_within (mkTimestamp (year today) (month today) 1) today)
                    data)))%Q.
Proof. intros H. split; now apply between_total. Qed.

(** ** The order of the records *)

Lemma total_filter_Permutation {A : Type} (f : A -> bool) (g : A -> Q)
  (l l' : list A) :
  Permutation l l' ->
  (total (map g (filter f l)) == total (map g (filter f l')))%Q.
Proof.
  unfold total.
  induction 1 as [| x l l' _ IH | x y l | l l' l'' _ IH1 _ IH2].
  - reflexivity.
  - cbn [filter]. destruct (f x); cbn [map fold_right]; now rewrite IH.
  - cbn [filter]. destruct (f x), (f y); cbn [map fold_right]; ring.
  - now rewrite IH1.
Qed.

Lemma group_total_total (d : Timestamp) (rows : list (option Timestamp * Q)) :
  (group_total d rows == total (map snd (filter (has_key d) rows)))%Q.
Proof. unfold group_total, total. now rewrite fold_left_Qplus, Qplus_0_l. Qed.

Lemma In_sorted_groups (d : Timestamp) (v : Q)
  (rows : list (option Timestamp * Q)) :
  In (d, v) (sort_index (groupby_sum rows)) <->
  existsb (has_key d) rows = true /\ v = group_total d rows.
Proof.
  rewrite In_sort_index. split.
  - intros Hin. apply In_loc in Hin; [| apply NoDup_groupby_sum].
    rewrite loc_groupby_sum in Hin.
    destruct (existsb (has_key d) rows); [| discriminate].
    now injection Hin as <-.
  - intros [E ->]. apply loc_In. now rewrite loc_groupby_sum, E.
Qed.

(** Two strictly ascending lists with the same elements are the same list. *)
Lemma sorted_same_elements (l1 : list Timestamp) :
  forall l2, StronglySorted ts_lt l1 -> StronglySorted ts_lt l2 ->
             (forall x, In x l1 <-> In x l2) -> l1 = l2.
Proof.
  induction l1 as [| a l1 IH]; intros l2 H1 H2 Hsame.
  - destruct l2 as [| b l2]; [reflexivity |].
    exfalso. apply (proj2 (Hsame b)). now left.
  - destruct l2 as [| b l2].
    + exfalso. apply (proj1 (Hsame a)). now left.
    + inversion H1 as [| ? ? S1 F1]; inversion H2 as [| ? ? S2 F2]; subst.
      rewrite Forall_forall in F1, F2.
      assert (E : a = b).
      { destruct (proj1 (Hsame a) (or_introl eq_refl)) as [E | Ha];
          [now symmetry |].
        destruct (proj2 (Hsame b) (or_introl eq_refl)) as [E | Hb];
          [exact E |].
        exfalso. apply (ts_lt_irrefl a).
        apply ts_lt_trans with b; [now apply F1 | now apply F2]. }
      subst b. f_equal. apply IH; try assumption.
      intros x. split; intros Hx.
      * destruct (proj1 (Hsame x) (or_intror Hx)) as [E | Hx']; [| exact Hx'].
        subst x. exfalso. apply (ts_lt_irrefl a). now apply F1.
      * destruct (proj2 (Hsame x) (or_intror Hx)) as [E | Hx']; [| exact Hx'].
        subst x. exfalso. apply (ts_lt_irrefl a). now apply F2.
Qed.

Lemma existsb_Permutation {A : Type} (f : A -> bool) (l l' : list A) :
  Permutation l l' -> existsb f l = true -> existsb f l' = true.
Proof.
  intros HP. rewrite !existsb_exists. intros (x & Hx & E).
  exists x. split; [| exact E]. now apply (Permutation_in x HP).
Qed.

(** X9: the order in which the records arrive does not matter: two lists
    with the same records in any order give daily series with the same index
    and, date by date, the same value (as a rational number). *)
Theorem daily_ignores_record_order (data data' : list raw_record)
  (s : Series Q) :
  Permutation data data' -> daily data = Ok s ->
  exists s', daily data' = Ok s' /\ index s' = index s /\
             forall d v v', In (d, v) s -> In (d, v') s' -> (v == v')%Q.
Proof.
  intros HP H. apply daily_Ok_inv in H as (Hne & Hacc & ->).
  assert (Hne' : data' <> []).
  { intros ->. apply Hne. apply Permutation_nil. now symmetry. }
  assert (Hacc' : Forall accepted data')
    by (eapply Permutation_Forall; eassumption).
  set (f := fun r => (key r, amount r)).
  assert (HR : Permutation (map f data) (map f data'))
    by now apply Permutation_map.
  eexists. split; [now apply daily_Ok |]. fold f. split.
  - apply sorted_same_elements;
      try (apply sorted_sort_index, NoDup_groupby_sum).
    intros d. rewrite !In_index. split; intros [v Hin];
      apply In_sorted_groups in Hin as [E _]; eexists;
      apply In_sorted_groups; (split; [| reflexivity]).
    + eapply existsb_Permutation; [symmetry |]; eassumption.
    + eapply existsb_Permutation; eassumption.
  - intros d v v' Hv Hv'.
    apply In_sorted_groups in Hv as [_ ->].
    apply In_sorted_groups in Hv' as [_ ->].
    rewrite !group_total_total. now apply total_filter_Permutation.
Qed.

(** ** More on the summary *)

Lemma ts_le_trans (a b c : Timestamp) : ts_le a b -> ts_le b c -> ts_le a c.
Proof.
  intros [H1 | ->] [H2 | ->]; try (now left); try (now right).
  left. now apply ts_lt_trans with b.
Qed.

Lemma total_within_nonneg (lo hi : Timestamp) (s : Series Q) :
  (forall d v, In (d, v) s -> 0 <= v)%Q -> (0 <= total_within lo hi s)%Q.
Proof.
  induction s as [| [t v] s IH]; intros Hpos; cbn [total_within].
  - apply Qle_refl.
  - assert (Hv : (0 <= v)%Q) by (apply (Hpos t); now left).
    assert (Hs : (0 <= total_within lo hi s)%Q)
      by (apply IH; intros d w Hin; apply (Hpos d); now right).
    destruct (ts_le_dec lo t), (ts_le_dec t hi); try exact Hs. lra.
Qed.

Lemma total_within_narrower (lo lo' hi : Timestamp) (s : Series Q) :
  ts_le lo lo' -> (forall d v, In (d, v) s -> 0 <= v)%Q ->
  (total_within lo' hi s <= total_within lo hi s)%Q.
Proof.
  intros Hlo. induction s as [| [t v] s IH]; intros Hpos; cbn [total_within].
  - apply Qle_refl.
  - assert (Hv : (0 <= v)%Q) by (apply (Hpos t); now left).
    assert (Hs : (total_within lo' hi s <= total_within lo hi s)%Q)
      by (apply IH; intros d w Hin; apply (Hpos d); now right).
    destruct (ts_le_dec lo' t) as [H' | H'], (ts_le_dec lo t) as [H | H],
             (ts_le_dec t hi); try lra.
    exfalso. apply H. now apply ts_le_trans with lo'.
Qed.

(** X10: when no value of the series is negative and the month of today is
    at least 1, the month-to-date sum lies between 0 and the year-to-date
    sum, and the percentage of the month in the year, when there is one, lies
    between 0 and 100. *)
Theorem mtd_is_a_share_of_ytd (s : Series Q) (today : Timestamp) :
  (forall d v, In (d, v) s -> 0 <= v)%Q -> 1 <= month today ->
  (0 <= mtd s today)%Q /\ (mtd s today <= ytd s today)%Q /\
  (forall p, pct_mtd_ytd s today = Some p -> 0 <= p /\ p <= 100)%Q.
Proof.
  intros Hpos Hm.
  assert (Hlo : ts_le (mkTimestamp (year today) 1 1)
                      (mkTimestamp (year today) (month today) 1)).
  { destruct (Z.eq_dec (month today) 1) as [-> | Hne]; [now right |].
    left. unfold ts_lt. cbn [year month day]. lia. }
  assert (H0 : (0 <= mtd s today)%Q).
  { unfold mtd. rewrite series_sum_between. now apply total_within_nonneg. }
  assert (H1 : (mtd s today <= ytd s today)%Q).
  { unfold mtd, ytd. rewrite !series_sum_between.
    now apply total_within_narrower. }
  split; [exact H0 |]. split; [exact H1 |].
  intros p. unfold pct_mtd_ytd.
  destruct (Qltb 0 (ytd s today)) eqn:E; [| discriminate].
  apply Qltb_lt in E. intros [= <-].
  assert (Hq : (mtd s today / ytd s today * ytd s today == mtd s today)%Q).
  { field. intros Hz. rewrite Hz in E. now apply Qlt_irrefl in E. }
  split; nra.
Qed.

Lemma loc_daily (data : list raw_record) (s : Series Q) (d : Timestamp) :
  daily data = Ok s ->
  loc d s =
  if existsb (has_key d) (map (fun r => (key r, amount r)) data)
  then Some (sum_for_date d data) else None.
Proof.
  intros H. apply daily_Ok_inv in H as (_ & _ & ->).
  set (rows := map (fun r => (key r, amount r)) data).
  assert (Hnd : NoDup (index (sort_index (groupby_sum rows))))
    by apply sorted_NoDup, sorted_sort_index, NoDup_groupby_sum.
  destruct (existsb (has_key d) rows) eqn:E.
  - apply In_loc; [exact Hnd |]. apply In_sorted_groups.
    split; [exact E | symmetry; apply group_total_rows].
  - apply loc_None. rewrite In_index. intros (v & Hin).
    apply In_sorted_groups in Hin as [E' _]. congruence.
Qed.

(** X11: when some record bears today's date, today's value is the sum of
    the amounts of the records of today, no warning is printed, the output is
    the seven lines of the report, and its third line shows that sum as a
    whole-dollar amount. *)
Theorem present_today_is_reported (data : list raw_record) (s : Series Q)
  (today : Timestamp) :
  daily data = Ok s ->
  (exists r, In r data /\ to_datetime (record_date r) = Stamp today) ->
  today_value s today = Some (sum_for_date today data) /\
  warning s today = [] /\
  stdout (summarize s today) = report s today /\
  List.length (stdout (summarize s today)) = 7%nat /\
  nth_error (report s today) 2 =
    Some ("Today's value:     $"
            ++ format_comma_0f (sum_for_date today data))%string.
Proof.
  intros H Hr. apply existsb_rows in Hr.
  assert (L : loc today s = Some (sum_for_date today data))
    by (rewrite (loc_daily data s today H); now rewrite Hr).
  assert (C : index_contains today s = true).
  { apply index_contains_In, In_index. eexists. apply loc_In. exact L. }
  assert (T : today_value s today = Some (sum_for_date today data))
    by (unfold today_value; now rewrite C).
  assert (W : warning s today = []) by (unfold warning; now rewrite C).
  assert (O : stdout (summarize s today) = report s today)
    by (unfold summarize; cbn [stdout]; now rewrite W).
  repeat split; try assumption.
  - now rewrite O.
  - unfold report. cbn [nth_error]. now rewrite T.
Qed.

Lemma today_value_Some (s : Series Q) (today : Timestamp) :
  (exists v, today_value s today = Some v) <-> In today (index s).
Proof.
  unfold today_value. split.
  - intros [v H]. destruct (index_contains today s) eqn:C; [| discriminate].
    now apply index_contains_In.
  - intros H. assert (C := proj2 (index_contains_In today s) H). rewrite C.
    destruct (loc today s) as [v |] eqn:L; [now exists v |].
    now apply loc_None in L.
Qed.

(** X12: which percentages the report shows: the share of the month is a
    number exactly when the year-to-date sum is positive, and it is then
    [mtd / ytd * 100]; the share of today is a number exactly when the
    year-to-date sum is positive and today is in the index of the series. *)
Theorem percentages_are_numbers_iff (s : Series Q) (today : Timestamp) :
  ((exists p, pct_mtd_ytd s today = Some p) <-> (0 < ytd s today)%Q) /\
  ((exists p, pct_today_ytd s today = Some p) <->
   (0 < ytd s today)%Q /\ In today (index s)) /\
  (forall p, pct_mtd_ytd s today = Some p ->
             p = (mtd s today / ytd s today * 100)%Q).
Proof.
  split; [| split].
  - rewrite <- Qltb_lt. unfold pct_mtd_ytd.
    destruct (Qltb 0 (ytd s today)); split.
    + reflexivity.
    + intros _. eexists. reflexivity.
    + intros [p H]. discriminate H.
    + discriminate.
  - rewrite <- today_value_Some, <- Qltb_lt. unfold pct_today_ytd.
    destruct (today_value s today) as [v |], (Qltb 0 (ytd s today)); split.
    + intros _. split; [reflexivity | now exists v].
    + intros _. eexists. reflexivity.
    + intros [p H]. discriminate H.
    + intros [H _]. discriminate H.
    + intros [p H]. discriminate H.
    + intros [_ [w H]]. discriminate H.
    + intros [p H]. discriminate H.
    + intros [H _]. discriminate H.
  - intros p. unfold pct_mtd_ytd.
    destruct (Qltb 0 (ytd s today)); [| discriminate].
    now intros [= <-].
Qed.

(** X13: where the total before a date is not zero, the percent change at
    that date is the finite number [(c / p - 1) * 100]; it is positive for a
    rise from a positive total, and negative for a rise from a negative
    total, the quotient being taken by the signed total. *)
Theorem nonzero_total_gives_finite_change (s : Series Q) (i : nat)
  (dp d : Timestamp) (p c : Q) :
  nth_error s i = Some (dp, p) -> ~ (p == 0)%Q ->
  nth_error s (S i) = Some (d, c) ->
  nth_error (pct_change s) (S i) = Some (d, Finite ((c / p - 1) * 100)) /\
  (0 < p -> p < c -> 0 < (c / p - 1) * 100)%Q /\
  (p < 0 -> p < c -> (c / p - 1) * 100 < 0)%Q.
Proof.
  intros Hp Hnz Hc.
  assert (Hq : (c / p * p == c)%Q) by (field; exact Hnz).
  split; [| split; intros; nra].
  rewrite (nth_error_pct_change s i dp d p c Hp Hc). cbn [fdiv].
  destruct (Qeq_bool p 0) eqn:E; [| reflexivity].
  now apply Qeq_bool_iff in E.
Qed.

(** ** Merging, undated records, and the chart *)

Lemma value_or_zero (data : list raw_record) (s : Series Q) (d : Timestamp) :
  daily data = Ok s ->
  fillna0 (loc d s) = group_total d (map (fun r => (key r, amount r)) data).
Proof.
  intros H. rewrite (loc_daily data s d H).
  destruct (existsb (has_key d) (map (fun r => (key r, amount r)) data)) eqn:E.
  - cbn [fillna0]. symmetry. apply group_total_rows.
  - cbn [fillna0]. symmetry. now apply group_total_nil.
Qed.

(** X14: records from two downloads add up date by date: the daily series
    of two lists put together has the dates of both series, and at each date
    the sum of the two values, a series without that date counting for zero.
    Nothing is de-duplicated: a page served twice is counted twice. *)
Theorem daily_of_merged_records_adds_up (data data' : list raw_record)
  (s s' : Series Q) :
  daily data = Ok s -> daily data' = Ok s' ->
  exists s2, daily (data ++ data') = Ok s2 /\
    (forall d, In d (index s2) <-> In d (index s) \/ In d (index s')) /\
    (forall d v, In (d, v) s2 ->
                 (v == fillna0 (loc d s) + fillna0 (loc d s'))%Q).
Proof.
  intros H H'.
  assert (V := fun d => value_or_zero data s d H).
  assert (V' := fun d => value_or_zero data' s' d H').
  apply daily_Ok_inv in H as (Hne & Hacc & ->).
  apply daily_Ok_inv in H' as (Hne' & Hacc' & ->).
  set (f := fun r => (key r, amount r)).
  eexists. split.
  - apply daily_Ok.
    + destruct data; [contradiction | discriminate].
    + apply Forall_app. now split.
  - fold f. rewrite map_app. split.
    + intros d. rewrite !In_index. split.
      * intros [v Hin]. apply In_sorted_groups in Hin as [E _].
        rewrite existsb_app in E. apply orb_true_iff in E as [E | E];
          [left | right]; eexists; apply In_sorted_groups; now split.
      * intros [[v Hin] | [v Hin]]; apply In_sorted_groups in Hin as [E _];
          eexists; apply In_sorted_groups;
          (split; [| reflexivity]); rewrite existsb_app, E;
          [reflexivity | apply orb_true_r].
    + intros d v Hin. apply In_sorted_groups in Hin as [_ ->].
      rewrite V, V'. fold f.
      rewrite !group_total_total, filter_app, map_app. apply total_app.
Qed.

Lemma groupby_sum_skips_missing_keys (rows : list (option Timestamp * Q)) :
  groupby_sum rows = groupby_sum (filter has_some_key rows).
Proof.
  unfold groupby_sum. generalize (@nil (Timestamp * Q)) as acc.
  induction rows as [| [[k |] v] rows IH]; intros acc; cbn; auto.
Qed.

Lemma filter_dated_rows (data : list raw_record) :
  filter has_some_key (map (fun r => (key r, amount r)) data) =
  map (fun r => (key r, amount r)) (filter dated data).
Proof.
  induction data as [| r data IH]; [reflexivity |].
  cbn [map filter]. unfold has_some_key at 1, key at 1, dated at 1.
  cbn [fst]. destruct (to_datetime (record_date r)); cbn [map];
    now rewrite IH.
Qed.

(** X15: records without a date are left out, whatever their amount: a list
    with a first record and no rejected date string gives the daily series of
    its dated records alone; when none of its records is dated that series is
    empty, which the empty list, raising KeyError, does not give. *)
Theorem undated_records_are_left_out (data : list raw_record) :
  data <> [] ->
  (forall r, In r data -> to_datetime (record_date r) <> Unparseable) ->
  exists s, daily data = Ok s /\
    (filter dated data <> [] -> daily (filter dated data) = Ok s) /\
    (filter dated data = [] -> s = []) /\
    daily [] = Raise (KeyError "record_date").
Proof.
  intros Hne Hacc. apply Forall_forall in Hacc. eexists. split.
  - now apply daily_Ok.
  - rewrite groupby_sum_skips_missing_keys, filter_dated_rows.
    split; [| split].
    + intros Hd. apply daily_Ok; [exact Hd |].
      apply Forall_forall. intros r Hr. apply filter_In in Hr as [Hr _].
      rewrite Forall_forall in Hacc. now apply Hacc.
    + now intros ->.
    + reflexivity.
Qed.

Lemma index_pct_change (s : Series Q) : index (pct_change s) = index s.
Proof.
  unfold pct_change. rewrite series_pct_change_changes.
  unfold index. rewrite map_map. cbn [fst]. exact (index_changes s NaN).
Qed.

(** X16: the chart has one point for every date of the daily series, the
    first included: its x values are the dates of the series in strictly
    ascending order, and its y value at each of them is the value of the
    percent-change series at that date. *)
Theorem chart_has_one_point_per_date (data : list raw_record) (s : Series Q)
  (today : Timestamp) :
  daily data = Ok s ->
  xs (chart (summarize s today)) = index s /\
  StronglySorted ts_lt (xs (chart (summarize s today))) /\
  List.length (ys (chart (summarize s today))) = List.length s /\
  (forall i d, nth_error (xs (chart (summarize s today))) i = Some d ->
     exists y, nth_error (pct_change s) i = Some (d, y) /\
               nth_error (ys (chart (summarize s today))) i = Some y).
Proof.
  intros H. cbn [summarize chart plot xs ys].
  rewrite index_pct_change. split; [reflexivity |]. split; [| split].
  - apply daily_Ok_inv in H as (_ & _ & ->).
    apply sorted_sort_index, NoDup_groupby_sum.
  - unfold values. rewrite length_map.
    rewrite <- (length_map fst (pct_change s)). fold (index (pct_change s)).
    rewrite index_pct_change. unfold index. apply length_map.
  - intros i d Hd. rewrite <- index_pct_change in Hd. unfold index in Hd.
    rewrite nth_error_map in Hd. unfold values. rewrite nth_error_map.
    destruct (nth_error (pct_change s) i) as [[d' y] |]; [| discriminate].
    injection Hd as <-. now exists y.
Qed.

End Script.

(** ** The script on concrete inputs *)

Local Open Scope list_scope.

Lemma daily_one_entry_per_date_with_sum_witness :
  daily iso_to_datetime decimal_to_numeric example_records = Ok example_daily /\
  (forall d v, In (d, v) example_daily ->
     v = sum_for_date iso_to_datetime decimal_to_numeric d example_records) /\
  sum_for_date iso_to_datetime decimal_to_numeric (mkTimestamp 2024 1 2)
    example_records = 75%Q.
Proof.
  split; [reflexivity |]. split; [| reflexivity].
  apply (daily_one_entry_per_date_with_sum iso_to_datetime decimal_to_numeric
           example_records example_daily).
  reflexivity.
Defined.

(** C2, at the input where the code departs from it: the first page is
    empty, one request is issued and no record is accumulated, and then the
    aggregation raises KeyError; there is no empty daily series. *)
Theorem empty_first_page_run :
  fetch empty_server 1 2024 = Some (Ok [], [mkRequest 2024 500 1]) /\
  daily iso_to_datetime decimal_to_numeric [] = Raise (KeyError "record_date") /\
  main empty_server iso_to_datetime decimal_to_numeric 1 (mkTimestamp 2024 1 1)
  = Some (Raise (KeyError "record_date")).
Proof. repeat split. Qed.

Lemma fetch_pages_witness :
  fetch two_page_server 2 2024 =
  Some (Ok (repeat (mkRecord "2024-01-02" "1") 500 ++ [mkRecord "2024-01-03" "2"]),
        [mkRequest 2024 500 1; mkRequest 2024 500 2]).
Proof.
  rewrite (fetch_pages two_page_server
             [repeat (mkRecord "2024-01-02" "1") 500]
             [mkRecord "2024-01-03" "2"] 2 2024).
  - cbn [List.concat]. now rewrite app_nil_r.
  - intros [| i] Hi; [reflexivity | simpl in Hi; lia].
  - constructor; [rewrite repeat_length; lia | constructor].
  - reflexivity.
  - simpl; lia.
  - simpl; lia.
Defined.

Lemma fetch_three_pages_witness :
  fetch three_page_server 3 2024 =
  Some (Ok (repeat (mkRecord "2024-01-02" "1") 500
            ++ repeat (mkRecord "2024-01-03" "2") 500
            ++ repeat (mkRecord "2024-01-04" "3") 237),
        [mkRequest 2024 500 1; mkRequest 2024 500 2; mkRequest 2024 500 3]).
Proof.
  apply (fetch_three_pages three_page_server
           (repeat (mkRecord "2024-01-02" "1") 500)
           (repeat (mkRecord "2024-01-03" "2") 500)
           (repeat (mkRecord "2024-01-04" "3") 237) 0 2024);
    first [apply repeat_length | reflexivity].
Defined.

Lemma nonpositive_ytd_gives_no_percentage_witness :
  (ytd negative_daily (mkTimestamp 2024 1 3) <= 0)%Q /\
  pct_today_ytd negative_daily (mkTimestamp 2024 1 3) = None /\
  pct_mtd_ytd negative_daily (mkTimestamp 2024 1 3) = None.
Proof.
  assert (H : (ytd negative_daily (mkTimestamp 2024 1 3) <= 0)%Q)
    by (vm_compute; discriminate).
  split; [exact H |].
  destruct (nonpositive_ytd_gives_no_percentage negative_daily
              (mkTimestamp 2024 1 3) H) as (H1 & H2 & _).
  split; assumption.
Defined.

(** C8 as stated fails: with a year-to-date sum of -5 and today's value
    present, neither percentage is a number. *)
Lemma negative_ytd_counterexample :
  (ytd refund_daily (mkTimestamp 2024 3 1) < 0)%Q /\
  today_value refund_daily (mkTimestamp 2024 3 1) = Some (-5)%Q /\
  pct_mtd_ytd refund_daily (mkTimestamp 2024 3 1) = None /\
  pct_today_ytd refund_daily (mkTimestamp 2024 3 1) = None.
Proof. repeat split. Qed.

Lemma negative_ytd_gives_no_percentage_witness :
  (ytd negative_daily (mkTimestamp 2024 1 3) < 0)%Q /\
  pct_mtd_ytd negative_daily (mkTimestamp 2024 1 3) = None /\
  pct_today_ytd negative_daily (mkTimestamp 2024 1 3) = None.
Proof.
  assert (H : (ytd negative_daily (mkTimestamp 2024 1 3) < 0)%Q)
    by reflexivity.
  split; [exact H |].
  exact (negative_ytd_gives_no_percentage negative_daily
           (mkTimestamp 2024 1 3) H).
Defined.

Lemma missing_today_is_reported_witness :
  ~ In (mkTimestamp 2024 1 5) (index example_daily) /\
  run_on iso_to_datetime decimal_to_numeric example_records (mkTimestamp 2024 1 5)
  = Ok (summarize example_daily (mkTimestamp 2024 1 5)) /\
  stdout (summarize example_daily (mkTimestamp 2024 1 5)) =
  [ "Warning: No data found for today 2024-01-05.";
    "Operating Cash Deposits & Withdrawals (total, all categories):";
    "Data up to: 2024-01-05";
    "Today's value:     Data not available.";
    "Month-to-date:     $226";
    "Year-to-date:      $226";
    "% Today / YTD:     N/A";
    "% Month / YTD:     100.000%" ]%string.
Proof.
  assert (H : ~ In (mkTimestamp 2024 1 5) (index example_daily))
    by (simpl; intros [E | [E | []]]; discriminate E).
  split; [exact H |]. split; [| reflexivity].
  destruct (missing_today_is_reported iso_to_datetime decimal_to_numeric
              example_daily (mkTimestamp 2024 1 5) H) as (_ & _ & _ & _ & R).
  apply R. reflexivity.
Defined.

(** C7 as stated fails: the empty string is no calendar date, yet
    [pd.to_datetime] reads it as NaT and does not raise; the record is left
    out of the daily series and the run goes on. *)
Lemma empty_date_counterexample :
  iso_to_datetime "" = NaT /\
  daily iso_to_datetime decimal_to_numeric
    [mkRecord "2024-01-02" "100"; mkRecord "" "5"]
  = Ok [(mkTimestamp 2024 1 2, 100%Q)] /\
  is_ok (run_on iso_to_datetime decimal_to_numeric
           [mkRecord "2024-01-02" "100"; mkRecord "" "5"] (mkTimestamp 2024 1 2))
  = true.
Proof. repeat split. Qed.

Lemma rejected_date_raises_amount_never_witness :
  daily iso_to_datetime decimal_to_numeric
    [mkRecord "2024-01-02" "100"; mkRecord "not-a-date" "5"]
  = Raise ValueError /\
  run_on iso_to_datetime decimal_to_numeric
    [mkRecord "2024-01-02" "100"; mkRecord "not-a-date" "5"] (mkTimestamp 2024 1 2)
  = Raise ValueError.
Proof.
  apply (proj1 (rejected_date_raises_amount_never iso_to_datetime
                  decimal_to_numeric
                  [mkRecord "2024-01-02" "100"; mkRecord "not-a-date" "5"]
                  (mkTimestamp 2024 1 2))).
  exists (mkRecord "not-a-date" "5"). split; [right; now left | reflexivity].
Defined.

Lemma no_records_raise_KeyError_witness :
  new_year_server (mkRequest 2025 500 1) = HttpData [] /\
  main new_year_server iso_to_datetime decimal_to_numeric 1 (mkTimestamp 2025 1 1)
  = Some (Raise (KeyError "record_date")).
Proof.
  split; [reflexivity |].
  apply (no_records_raise_KeyError new_year_server iso_to_datetime
           decimal_to_numeric 0 (mkTimestamp 2025 1 1)).
  reflexivity.
Defined.

Lemma pct_change_is_relative_change_witness :
  exists x,
    nth_error (pct_change example_daily) 1 = Some (mkTimestamp 2024 1 3, x) /\
    feq x (fmul (fdiv (fsub (Finite (1505 # 10)) (Finite 75)) (Finite 75))
                (Finite 100)).
Proof.
  apply (proj1 (proj2 (proj2 (pct_change_is_relative_change example_daily)))
           0%nat (mkTimestamp 2024 1 2) 75%Q); reflexivity.
Defined.

Lemma zero_total_gives_nonfinite_change_witness :
  exists x,
    nth_error (pct_change flat_daily) 1 = Some (mkTimestamp 2024 1 3, x) /\
    is_finite x = false /\ x = inf_of_sign (150 ?= 0)%Q.
Proof.
  apply (zero_total_gives_nonfinite_change flat_daily 0
           (mkTimestamp 2024 1 2) (mkTimestamp 2024 1 3) 0%Q 150%Q);
    reflexivity.
Defined.

Lemma http_failure_aborts_run_witness :
  fetch failing_server 2 2024 =
    Some (Raise HTTPError, [mkRequest 2024 500 1; mkRequest 2024 500 2]) /\
  main failing_server iso_to_datetime decimal_to_numeric 2 (mkTimestamp 2024 1 5)
  = Some (Raise HTTPError).
Proof.
  apply (http_failure_aborts_run failing_server iso_to_datetime
           decimal_to_numeric [repeat (mkRecord "2024-01-02" "1") 500] 0
           (mkTimestamp 2024 1 5)).
  - intros [| i] Hi; [reflexivity | simpl in Hi; lia].
  - constructor; [rewrite repeat_length; lia | constructor].
  - reflexivity.
Defined.

Lemma fetch_requests_and_records_witness :
  exists n, (1 <= n)%nat /\ (n <= 2)%nat /\
    [mkRequest 2024 500 1; mkRequest 2024 500 2]
    = map (mkRequest 2024 500) (seq 1 n) /\
    repeat (mkRecord "2024-01-02" "1") 500 ++ [mkRecord "2024-01-03" "2"]
    = flat_map (served two_page_server)
        [mkRequest 2024 500 1; mkRequest 2024 500 2].
Proof.
  apply (fetch_requests_and_records two_page_server 2 2024
           (Ok (repeat (mkRecord "2024-01-02" "1") 500
                ++ [mkRecord "2024-01-03" "2"]))).
  reflexivity.
Defined.

Lemma full_pages_forever_never_stop_witness :
  fetch endless_server 40 2024 = None /\
  main endless_server iso_to_datetime decimal_to_numeric 40 (mkTimestamp 2024 1 5)
  = None.
Proof.
  apply (full_pages_forever_never_stop endless_server iso_to_datetime
           decimal_to_numeric (mkTimestamp 2024 1 5)).
  intros page. eexists. split; [reflexivity |]. rewrite repeat_length. lia.
Defined.

Lemma main_ends_in_one_of_four_ways_witness :
  main example_server iso_to_datetime decimal_to_numeric 1 (mkTimestamp 2024 1 3)
  = Some (Ok (summarize example_daily (mkTimestamp 2024 1 3))) /\
  exists fetched log,
    fetch example_server 1 2024 = Some (fetched, log) /\
    match fetched with
    | Raise e =>
        e = HTTPError /\
        Ok (summarize example_daily (mkTimestamp 2024 1 3)) = Raise HTTPError
    | Ok [] =>
        Ok (summarize example_daily (mkTimestamp 2024 1 3))
        = Raise (KeyError "record_date")
    | Ok data =>
        (~ Forall (accepted iso_to_datetime) data /\
         Ok (summarize example_daily (mkTimestamp 2024 1 3)) = Raise ValueError)
        \/
        (Forall (accepted iso_to_datetime) data /\
         exists s, daily iso_to_datetime decimal_to_numeric data = Ok s /\
                   Ok (summarize example_daily (mkTimestamp 2024 1 3))
                   = Ok (summarize s (mkTimestamp 2024 1 3)))
    end.
Proof.
  split; [reflexivity |].
  apply (main_ends_in_one_of_four_ways example_server iso_to_datetime
           decimal_to_numeric 1 (mkTimestamp 2024 1 3)).
  reflexivity.
Defined.

Lemma daily_conserves_total_witness :
  daily iso_to_datetime decimal_to_numeric example_records = Ok example_daily /\
  (series_sum example_daily ==
   total (map (amount decimal_to_numeric)
            (filter (dated iso_to_datetime) example_records)))%Q.
Proof.
  split; [reflexivity |].
  apply (daily_conserves_total iso_to_datetime decimal_to_numeric
           example_records example_daily).
  reflexivity.
Defined.

Lemma ytd_mtd_sum_the_records_in_range_witness :
  (ytd example_daily (mkTimestamp 2024 1 2) ==
   total (map (amount decimal_to_numeric)
            (filter (dated_within iso_to_datetime (mkTimestamp 2024 1 1)
                       (mkTimestamp 2024 1 2)) example_records)))%Q /\
  (mtd example_daily (mkTimestamp 2024 1 2) ==
   total (map (amount decimal_to_numeric)
            (filter (dated_within iso_to_datetime (mkTimestamp 2024 1 1)
                       (mkTimestamp 2024 1 2)) example_records)))%Q.
Proof.
  apply (ytd_mtd_sum_the_records_in_range iso_to_datetime decimal_to_numeric
           example_records example_daily (mkTimestamp 2024 1 2)).
  reflexivity.
Defined.

Lemma daily_ignores_record_order_witness :
  exists s',
    daily iso_to_datetime decimal_to_numeric (rev example_records) = Ok s' /\
    index s' = index example_daily /\
    forall d v v', In (d, v) example_daily -> In (d, v') s' -> (v == v')%Q.
Proof.
  apply (daily_ignores_record_order iso_to_datetime decimal_to_numeric
           example_records (rev example_records) example_daily).
  - apply Permutation_rev.
  - reflexivity.
Defined.

Lemma mtd_is_a_share_of_ytd_witness :
  (0 <= mtd flat_daily (mkTimestamp 2024 1 3))%Q /\
  (mtd flat_daily (mkTimestamp 2024 1 3)
   <= ytd flat_daily (mkTimestamp 2024 1 3))%Q /\
  (forall p, pct_mtd_ytd flat_daily (mkTimestamp 2024 1 3) = Some p ->
             0 <= p /\ p <= 100)%Q.
Proof.
  apply (mtd_is_a_share_of_ytd flat_daily (mkTimestamp 2024 1 3)).
  - intros d v [E | [E | []]]; injection E as _ <-; unfold Qle; simpl; lia.
  - simpl. lia.
Defined.

Lemma present_today_is_reported_witness :
  today_value example_daily (mkTimestamp 2024 1 3)
  = Some (sum_for_date iso_to_datetime decimal_to_numeric
            (mkTimestamp 2024 1 3) example_records) /\
  stdout (summarize example_daily (mkTimestamp 2024 1 3)) =
  [ "Operating Cash Deposits & Withdrawals (total, all categories):";
    "Data up to: 2024-01-03";
    "Today's value:     $150";
    "Month-to-date:     $226";
    "Year-to-date:      $226";
    "% Today / YTD:     66.741%";
    "% Month / YTD:     100.000%" ]%string.
Proof.
  split; [| reflexivity].
  apply (present_today_is_reported iso_to_datetime decimal_to_numeric
           example_records example_daily (mkTimestamp 2024 1 3)).
  - reflexivity.
  - exists (mkRecord "2024-01-03" "150.5"). split; [now left | reflexivity].
Defined.

Lemma nonzero_total_gives_finite_change_witness :
  nth_error (pct_change example_daily) 1
  = Some (mkTimestamp 2024 1 3, Finite (((1505 # 10) / 75 - 1) * 100)) /\
  (0 < 75 -> 75 < 1505 # 10 -> 0 < ((1505 # 10) / 75 - 1) * 100)%Q /\
  (75 < 0 -> 75 < 1505 # 10 -> ((1505 # 10) / 75 - 1) * 100 < 0)%Q.
Proof.
  apply (nonzero_total_gives_finite_change example_daily 0
           (mkTimestamp 2024 1 2) (mkTimestamp 2024 1 3) 75%Q (1505 # 10)%Q).
  - reflexivity.
  - unfold Qeq. simpl. lia.
  - reflexivity.
Defined.

Lemma daily_of_merged_records_adds_up_witness :
  exists s2,
    daily iso_to_datetime decimal_to_numeric (example_records ++ example_records)
    = Ok s2 /\
    (forall d, In d (index s2) <->
               In d (index example_daily) \/ In d (index example_daily)) /\
    (forall d v, In (d, v) s2 ->
       (v == fillna0 (loc d example_daily) + fillna0 (loc d example_daily))%Q).
Proof.
  apply (daily_of_merged_records_adds_up iso_to_datetime decimal_to_numeric
           example_records example_records example_daily example_daily);
    reflexivity.
Defined.

Lemma undated_records_are_left_out_witness :
  exists s,
    daily iso_to_datetime decimal_to_numeric
      [mkRecord "" "7"; mkRecord "2024-01-02" "100"; mkRecord "NaT" "9"] = Ok s /\
    (filter (dated iso_to_datetime)
       [mkRecord "" "7"; mkRecord "2024-01-02" "100"; mkRecord "NaT" "9"] <> [] ->
     daily iso_to_datetime decimal_to_numeric
       (filter (dated iso_to_datetime)
          [mkRecord "" "7"; mkRecord "2024-01-02" "100"; mkRecord "NaT" "9"])
     = Ok s) /\
    (filter (dated iso_to_datetime)
       [mkRecord "" "7"; mkRecord "2024-01-02" "100"; mkRecord "NaT" "9"] = [] ->
     s = []) /\
    daily iso_to_datetime decimal_to_numeric [] = Raise (KeyError "record_date").
Proof.
  apply (undated_records_are_left_out iso_to_datetime decimal_to_numeric
           [mkRecord "" "7"; mkRecord "2024-01-02" "100"; mkRecord "NaT" "9"]).
  - discriminate.
  - intros r [<- | [<- | [<- | []]]]; discriminate.
Defined.

Lemma chart_has_one_point_per_date_witness :
  xs (chart (summarize example_daily (mkTimestamp 2024 1 3)))
  = index example_daily /\
  StronglySorted ts_lt (xs (chart (summarize example_daily (mkTimestamp 2024 1 3)))) /\
  List.length (ys (chart (summarize example_daily (mkTimestamp 2024 1 3))))
  = List.length example_daily /\
  (forall i d,
     nth_error (xs (chart (summarize example_daily (mkTimestamp 2024 1 3)))) i
     = Some d ->
     exists y, nth_error (pct_change example_daily) i = Some (d, y) /\
               nth_error (ys (chart (summarize example_daily (mkTimestamp 2024 1 3)))) i
               = Some y).
Proof.
  apply (chart_has_one_point_per_date iso_to_datetime decimal_to_numeric
           example_records example_daily (mkTimestamp 2024 1 3)).
  reflexivity.
Defined.
